(** * LinkFileFucker: the file-to-link bot, embedded and verified

    A shallow embedding of the bot's Python sources.  One Rocq module per
    source module ([config], [links], [states], [storage], [keyboards],
    [bot]); the Python built-ins the sources rely on ([str.strip],
    [str.format], truthiness) live in [py], the platform types in
    [pyrogram].  Handlers are functions in a small state-and-exception
    monad over the two module-level singletons.  Theorems come after all
    definitions. *)

From Stdlib Require Import String Ascii ZArith NArith List Lia.
From Stdlib Require Import DecimalString.
From stdpp Require Import base option list countable gmap.

Local Open Scope Z_scope.

(* ===================================================================== *)
(** * Python built-ins *)
(* ===================================================================== *)

Module py.

(** A Python [str] is a sequence of Unicode code points. *)
Abbreviation str := (list N).

(** Source literals are written as UTF-8 text and decoded once. *)
Fixpoint utf8_go (bs : list N) (need : nat) (acc : N) : str :=
  match bs with
  | [] => []
  | b :: bs' =>
      match need with
      | O =>
          if (b <? 128)%N then b :: utf8_go bs' 0 0%N
          else if (b <? 224)%N then utf8_go bs' 1 (N.land b 31)
          else if (b <? 240)%N then utf8_go bs' 2 (N.land b 15)
          else utf8_go bs' 3 (N.land b 7)
      | S O => (acc * 64 + N.land b 63)%N :: utf8_go bs' 0 0%N
      | S n => utf8_go bs' n (acc * 64 + N.land b 63)%N
      end
  end.

Definition u (s : string) : str :=
  utf8_go (List.map N_of_ascii (list_ascii_of_string s)) 0 0%N.

(** [x in s] on strings: [x] occurs in [s] as a contiguous run. *)
Definition contains (s x : str) : Prop :=
  exists pre post, s = pre ++ x ++ post.

(** Executable version of [contains]. *)
Fixpoint starts_with (s x : str) : bool :=
  match x, s with
  | [], _ => true
  | _ :: _, [] => false
  | c :: x', d :: s' => (c =? d)%N && starts_with s' x'
  end.

Fixpoint find (s x : str) : bool :=
  starts_with s x ||
  match s with
  | [] => false
  | _ :: s' => find s' x
  end.

(** [str.isspace] for one code point (CPython's [_PyUnicode_IsWhitespace]). *)
Definition isspace (c : N) : bool :=
  ((9 <=? c) && (c <=? 13) || (28 <=? c) && (c <=? 32)
   || (c =? 133) || (c =? 160) || (c =? 5760)
   || (8192 <=? c) && (c <=? 8202)
   || (c =? 8232) || (c =? 8233) || (c =? 8239) || (c =? 8287)
   || (c =? 12288))%N.

Fixpoint lstrip (s : str) : str :=
  match s with
  | [] => []
  | c :: s' => if isspace c then lstrip s' else s
  end.

Definition rstrip (s : str) : str := rev (lstrip (rev s)).

(** [s.strip()] with no argument. *)
Definition strip (s : str) : str := rstrip (lstrip s).

(** Truthiness of an [Optional[str]]: [None] and the empty string are
    false. *)
Definition truthy (o : option str) : bool :=
  match o with
  | Some (_ :: _) => true
  | _ => false
  end.

(** [a or b] for an optional string [a] and a string [b]. *)
Definition or_else (a : option str) (b : str) : str :=
  match a with
  | Some (c :: s) => c :: s
  | _ => b
  end.

(** [str(x)], also what an f-string field prints, for an
    [Optional[str]]. *)
Definition str_of_opt (o : option str) : str :=
  match o with
  | Some s => s
  | None => u "None"
  end.

(** [str(n)] for an [int]. *)
Definition str_of_int (n : Z) : str :=
  u (NilZero.string_of_int (Z.to_int n)).

(** [pattern.format] with keyword arguments, for patterns whose
    replacement fields are plain names: [{name}] is replaced by the
    keyword argument, [{{] and [}}] are the escapes of the two braces.
    [None] stands for the exception Python raises (unknown field, single
    brace). *)
Definition kwargs := list (str * str).

Fixpoint lookup_kw (name : str) (kw : kwargs) : option str :=
  match kw with
  | [] => None
  | (k, v) :: kw' => if decide (k = name) then Some v else lookup_kw name kw'
  end.

Definition LBRACE : N := 123.
Definition RBRACE : N := 125.

(** [field = None]: reading literal text, [lit] tells whether the previous
    character was an unpaired brace ([Some c]).  [field = Some n]: inside a
    replacement field whose name so far is [n] (reversed). *)
Fixpoint format_go (pat : str) (kw : kwargs)
    (field : option str) (lit : option N) : option str :=
  match pat with
  | [] =>
      match field, lit with
      | None, None => Some []
      | _, _ => None
      end
  | c :: pat' =>
      match field with
      | Some n =>
          if (c =? RBRACE)%N then
            v ← lookup_kw (rev n) kw;
            r ← format_go pat' kw None None;
            Some (v ++ r)
          else format_go pat' kw (Some (c :: n)) None
      | None =>
          match lit with
          | Some b =>
              if (b =? LBRACE)%N then
                if (c =? LBRACE)%N then
                  r ← format_go pat' kw None None; Some (LBRACE :: r)
                else if (c =? RBRACE)%N then
                  v ← lookup_kw [] kw;
                  r ← format_go pat' kw None None;
                  Some (v ++ r)
                else format_go pat' kw (Some [c]) None
              else
                if (c =? RBRACE)%N then
                  r ← format_go pat' kw None None; Some (RBRACE :: r)
                else None
          | None =>
              if (c =? LBRACE)%N || (c =? RBRACE)%N
              then format_go pat' kw None (Some c)
              else r ← format_go pat' kw None None; Some (c :: r)
          end
      end
  end.

Definition format (pat : str) (kw : kwargs) : option str :=
  format_go pat kw None None.

End py.

Import py.

Definition NL : str := [10%N].

(* ===================================================================== *)
(** * config.py *)
(* ===================================================================== *)

Module config.

Definition BOT_NAME : str := u "File to Link Bot".

Definition STREAM_LINK_PATTERN : str := u "https://stream.example.com/{file_key}".
Definition DOWNLOAD_LINK_PATTERN : str := u "https://download.example.com/{file_key}".
Definition TG_LINK_PATTERN : str := u "https://t.me/{bot_username}/{message_id}".

End config.

(* ===================================================================== *)
(** * links.py *)
(* ===================================================================== *)

Module links.

(** The three generators return [None] where [str.format] would raise. *)
Definition generate_stream_link (file_key : str) : option str :=
  format config.STREAM_LINK_PATTERN [(u "file_key", file_key)].

Definition generate_download_link (file_key : str) : option str :=
  format config.DOWNLOAD_LINK_PATTERN [(u "file_key", file_key)].

Definition generate_tg_link (bot_username : str) (message_id : Z) : option str :=
  format config.TG_LINK_PATTERN
    [(u "bot_username", bot_username); (u "message_id", str_of_int message_id)].

(** One [message += ...] line guarded by [if link:]. *)
Definition link_line (label : str) (link : option str) : str :=
  if truthy link then label ++ str_of_opt link ++ u ")" ++ NL else [].

Definition format_links_message (file_name file_key : str) (has_password : bool)
    (stream_link download_link tg_link : option str) : str :=
  let message := u "📁 **File Links for:** `" ++ file_name ++ u "`" ++ NL ++ NL in
  let message := message ++ u "🔑 **File Key:** `" ++ file_key ++ u "`" ++ NL in
  let message := message ++ u "🔒 **Password Protected:** "
                   ++ (if has_password then u "Yes" else u "No") ++ NL ++ NL in
  let message := message ++ u "**Available Links:**" ++ NL in
  let message := message ++ link_line (u "▶️ [Stream Link](") stream_link in
  let message := message ++ link_line (u "⬇️ [Download Link](") download_link in
  let message := message ++ link_line (u "📱 [Telegram Link](") tg_link in
  message.

End links.

(* ===================================================================== *)
(** * keyboards.py *)
(* ===================================================================== *)

Module keyboards.

(** An inline keyboard: rows of buttons, a button is its label and its
    callback data. *)
Definition InlineKeyboardMarkup := list (list (str * str)).

Definition password_choice_keyboard : InlineKeyboardMarkup :=
  [[(u "✅ No Password", u "pwd_no"); (u "🔒 Yes, Set Password", u "pwd_yes")]].

Definition confirm_password_keyboard : InlineKeyboardMarkup :=
  [[(u "✅ Password Set", u "pwd_confirm")]].

End keyboards.

(* ===================================================================== *)
(** * states.py *)
(* ===================================================================== *)

Module states.

Record UserState := mkUserState {
  user_id : Z;
  file_key : option str;
  file_id : option str;
  file_name : option str;
  file_size : option Z;
  awaiting_password : bool;
  password_choice : option str;
  context : list (str * str)
}.

(** [UserState(user_id=user_id)]: every other field at its default. *)
Definition new_UserState (uid : Z) : UserState :=
  mkUserState uid None None None None false None [].

(** Attribute assignments on a state object. *)
Definition with_file_key (v : option str) (s : UserState) : UserState :=
  mkUserState (user_id s) v (file_id s) (file_name s) (file_size s)
    (awaiting_password s) (password_choice s) (context s).
Definition with_file_id (v : option str) (s : UserState) : UserState :=
  mkUserState (user_id s) (file_key s) v (file_name s) (file_size s)
    (awaiting_password s) (password_choice s) (context s).
Definition with_file_name (v : option str) (s : UserState) : UserState :=
  mkUserState (user_id s) (file_key s) (file_id s) v (file_size s)
    (awaiting_password s) (password_choice s) (context s).
Definition with_file_size (v : option Z) (s : UserState) : UserState :=
  mkUserState (user_id s) (file_key s) (file_id s) (file_name s) v
    (awaiting_password s) (password_choice s) (context s).
Definition with_awaiting_password (v : bool) (s : UserState) : UserState :=
  mkUserState (user_id s) (file_key s) (file_id s) (file_name s) (file_size s)
    v (password_choice s) (context s).
Definition with_password_choice (v : option str) (s : UserState) : UserState :=
  mkUserState (user_id s) (file_key s) (file_id s) (file_name s) (file_size s)
    (awaiting_password s) v (context s).

(** [StateManager.states]: the dict from user id to state object.  The
    objects are reached only through the dict, so an attribute assignment
    on the object returned by [get_state] is a write at that user's entry. *)
Record StateManager := mkStateManager { states : gmap Z UserState }.

Definition empty : StateManager := mkStateManager ∅.

(** Get or create: the missing entry is inserted before it is returned. *)
Definition get_state (sm : StateManager) (uid : Z) : UserState * StateManager :=
  match states sm !! uid with
  | Some s => (s, sm)
  | None => (new_UserState uid, mkStateManager (<[uid := new_UserState uid]> (states sm)))
  end.

(** [state = self.get_state(user_id)] followed by assignments [f] on it. *)
Definition assign (sm : StateManager) (uid : Z) (f : UserState -> UserState) : StateManager :=
  let '(state, sm) := get_state sm uid in
  mkStateManager (<[uid := f state]> (states sm)).

Definition set_file_info (sm : StateManager) (uid : Z)
    (file_key file_id file_name : str) (file_size : Z) : StateManager :=
  assign sm uid (fun state =>
    let state := with_file_key (Some file_key) state in
    let state := with_file_id (Some file_id) state in
    let state := with_file_name (Some file_name) state in
    let state := with_file_size (Some file_size) state in
    state).

Definition set_awaiting_password (sm : StateManager) (uid : Z) (awaiting : bool) : StateManager :=
  assign sm uid (with_awaiting_password awaiting).

Definition set_password_choice (sm : StateManager) (uid : Z) (choice : str) : StateManager :=
  assign sm uid (with_password_choice (Some choice)).

Definition clear_state (sm : StateManager) (uid : Z) : StateManager :=
  match states sm !! uid with
  | Some _ => mkStateManager (delete uid (states sm))
  | None => sm
  end.

End states.

(* ===================================================================== *)
(** * storage.py *)
(* ===================================================================== *)

Module storage.

Record FileMetadata := mkFileMetadata {
  file_key : str;
  file_id : str;
  file_name : str;
  file_size : Z;
  user_id : Z;
  message_id_in_storage : Z;
  has_password : bool;
  password : option str;
  created_at : str
}.

Definition with_password (v : option str) (m : FileMetadata) : FileMetadata :=
  mkFileMetadata (file_key m) (file_id m) (file_name m) (file_size m) (user_id m)
    (message_id_in_storage m) (has_password m) v (created_at m).
Definition with_has_password (v : bool) (m : FileMetadata) : FileMetadata :=
  mkFileMetadata (file_key m) (file_id m) (file_name m) (file_size m) (user_id m)
    (message_id_in_storage m) v (password m) (created_at m).

(** [data] is the in-memory dict, [disk] the table as [_save] last wrote
    it to the JSON file (writing the file is taken to succeed). *)
Record FileStorage := mkFileStorage {
  data : gmap str FileMetadata;
  disk : gmap str FileMetadata
}.

Definition empty : FileStorage := mkFileStorage ∅ ∅.

Definition _save (fs : FileStorage) : FileStorage :=
  mkFileStorage (data fs) (data fs).

Definition store_file (fs : FileStorage) (file_metadata : FileMetadata) : str * FileStorage :=
  let key := file_key file_metadata in
  let fs := mkFileStorage (<[key := file_metadata]> (data fs)) (disk fs) in
  let fs := _save fs in
  (key, fs).

Definition get_file (fs : FileStorage) (file_key : str) : option FileMetadata :=
  data fs !! file_key.

Definition update_password (fs : FileStorage) (file_key password : str) : bool * FileStorage :=
  match data fs !! file_key with
  | Some m =>
      let m := with_password (Some password) m in
      let m := with_has_password true m in
      (true, _save (mkFileStorage (<[file_key := m]> (data fs)) (disk fs)))
  | None => (false, fs)
  end.

Definition delete_file (fs : FileStorage) (file_key : str) : bool * FileStorage :=
  match data fs !! file_key with
  | Some _ => (true, _save (mkFileStorage (delete file_key (data fs)) (disk fs)))
  | None => (false, fs)
  end.

(** The mutating operations of the store, for sequences of calls. *)
Inductive Op :=
| op_store (m : FileMetadata)
| op_update_password (file_key password : str)
| op_delete (file_key : str).

Definition apply (fs : FileStorage) (o : Op) : FileStorage :=
  match o with
  | op_store m => snd (store_file fs m)
  | op_update_password k p => snd (update_password fs k p)
  | op_delete k => snd (delete_file fs k)
  end.

Definition apply_all (fs : FileStorage) (ops : list Op) : FileStorage :=
  fold_left apply ops fs.

(** The keys a sequence of calls hands to [store_file]. *)
Fixpoint stored_keys (ops : list Op) : list str :=
  match ops with
  | [] => []
  | op_store m :: ops' => file_key m :: stored_keys ops'
  | _ :: ops' => stored_keys ops'
  end.

End storage.

(* ===================================================================== *)
(** * The messaging platform (pyrogram), as the bot sees it *)
(* ===================================================================== *)

Module pyrogram.

(** [Document], [Video] and [Audio] expose the same four attributes. *)
Record Media := mkMedia {
  file_name : option str;
  file_id : str;
  file_unique_id : str;
  file_size : Z
}.

(** An inbound private message.  [text] is [None] for a message that
    carries no text (a sticker, a photo). *)
Record Message := mkMessage {
  from_user : Z;
  id : Z;
  text : option str;
  document : option Media;
  video : option Media;
  audio : option Media
}.

Record CallbackQuery := mkCallbackQuery {
  cq_from_user : Z;
  data : str
}.

(** [RpcError] is the platform's error class; [Exception] stands for any
    other exception.  [except Exception] catches both. *)
Inductive exn := RpcError | Exception.

(** What the bot asks the platform to do.  [chat] is the private chat
    with that user. *)
Inductive Action :=
| reply_text (chat : Z) (text : str)
| edit_text (chat : Z) (text : str) (reply_markup : option keyboards.InlineKeyboardMarkup)
| answer (user : Z) (text : option str) (show_alert : bool)
| forward_messages (chat_id from_chat_id message_ids : Z).

End pyrogram.

(* ===================================================================== *)
(** * bot.py *)
(* ===================================================================== *)

Module bot.

Import pyrogram.

(** What the outside world answers while one event is handled.
    [faults] scripts the platform calls in the order they are made:
    [Some e] makes that call raise [e], [None] (or an exhausted script)
    lets it succeed. *)
Record Env := mkEnv {
  faults : list (option exn);
  token_urlsafe : str;          (* secrets.token_urlsafe(16) *)
  utcnow : str;                 (* datetime.utcnow().isoformat() *)
  stored_message_id : Z;        (* id of the message forward_messages returns *)
  me_username : str;            (* (await client.get_me()).username *)
  STORAGE_CHANNEL_ID : Z;       (* config.STORAGE_CHANNEL_ID, from the environment *)
  size_mb : Z -> str            (* the .2f rendering of file_size / (1024*1024) *)
}.

(** The two module-level singletons. *)
Record World := mkWorld {
  state_manager : states.StateManager;
  file_storage : storage.FileStorage
}.

Definition initial : World := mkWorld states.empty storage.empty.

(** State threaded through a handler: the singletons, the actions the
    platform carried out so far, and what is left of the fault script. *)
Record Ctx := mkCtx {
  world : World;
  sent : list Action;
  script : list (option exn)
}.

Inductive result (A : Type) :=
| Return (a : A)
| Raise (e : exn).
Arguments Return {A} a.
Arguments Raise {A} e.

Definition M (A : Type) : Type := Ctx -> result A * Ctx.

#[global] Instance M_ret : MRet M := fun A a c => (Return a, c).

#[global] Instance M_bind : MBind M := fun A B f m c =>
  match m c with
  | (Return a, c') => f a c'
  | (Raise e, c') => (Raise e, c')
  end.

Definition raise {A} (e : exn) : M A := fun c => (Raise e, c).

(** [try: body except ...: handler e]. *)
Definition try_except {A} (body : M A) (handler : exn -> M A) : M A := fun c =>
  match body c with
  | (Return a, c') => (Return a, c')
  | (Raise e, c') => handler e c'
  end.

(** A call that raises where the pure model answers [None]. *)
Definition or_raise {A} (o : option A) : M A :=
  match o with
  | Some a => mret a
  | None => raise Exception
  end.

(** An awaited platform call: it fails as the script says, or is carried
    out. *)
Definition platform (done : list Action) : M unit := fun c =>
  match script c with
  | Some e :: sc => (Raise e, mkCtx (world c) (sent c) sc)
  | None :: sc => (Return tt, mkCtx (world c) (sent c ++ done) sc)
  | [] => (Return tt, mkCtx (world c) (sent c ++ done) [])
  end.

Definition get_me (env : Env) : M str :=
  platform [];; mret (me_username env).

(** Method calls on the singletons. *)
Definition on_states {A} (f : states.StateManager -> A * states.StateManager) : M A := fun c =>
  let '(a, sm) := f (state_manager (world c)) in
  (Return a, mkCtx (mkWorld sm (file_storage (world c))) (sent c) (script c)).

Definition on_storage {A} (f : storage.FileStorage -> A * storage.FileStorage) : M A := fun c =>
  let '(a, fs) := f (file_storage (world c)) in
  (Return a, mkCtx (mkWorld (state_manager (world c)) fs) (sent c) (script c)).

Definition get_state (uid : Z) : M states.UserState :=
  on_states (fun sm => states.get_state sm uid).
Definition set_file_info (uid : Z) (file_key file_id file_name : str) (file_size : Z) : M unit :=
  on_states (fun sm => (tt, states.set_file_info sm uid file_key file_id file_name file_size)).
Definition set_awaiting_password (uid : Z) (awaiting : bool) : M unit :=
  on_states (fun sm => (tt, states.set_awaiting_password sm uid awaiting)).
Definition set_password_choice (uid : Z) (choice : str) : M unit :=
  on_states (fun sm => (tt, states.set_password_choice sm uid choice)).
Definition clear_state (uid : Z) : M unit :=
  on_states (fun sm => (tt, states.clear_state sm uid)).

Definition store_file (m : storage.FileMetadata) : M str :=
  on_storage (fun fs => storage.store_file fs m).
(** [state.file_key] may be [None], which is no key of the dict. *)
Definition get_file (file_key : option str) : M (option storage.FileMetadata) :=
  on_storage (fun fs => (file_key ≫= storage.get_file fs, fs)).
Definition update_password (file_key : option str) (password : str) : M bool :=
  on_storage (fun fs =>
    match file_key with
    | Some k => storage.update_password fs k password
    | None => (false, fs)
    end).

(** ** Message texts *)

Definition WELCOME : str :=
  u "👋 Welcome to " ++ config.BOT_NAME ++ u "!" ++ NL ++ NL
  ++ u "📤 Send me any file (document, video, audio) and I'll convert it to:" ++ NL
  ++ u "  • Stream Link (▶️)" ++ NL
  ++ u "  • Download Link (⬇️)" ++ NL
  ++ u "  • Telegram Link (📱)" ++ NL ++ NL
  ++ u "🔒 Optional: Protect your file with a password!" ++ NL ++ NL
  ++ u "Just send a file to get started.".

Definition PROCESSING : str := u "⏳ Processing your file...".

Definition file_received (env : Env) (file_name : str) (file_size : Z) (file_key : str) : str :=
  u "📁 **File Received:** `" ++ file_name ++ u "`" ++ NL
  ++ u "💾 **Size:** " ++ size_mb env file_size ++ u " MB" ++ NL
  ++ u "🔑 **Key:** `" ++ file_key ++ u "`" ++ NL ++ NL
  ++ u "🔐 Do you want to protect this file with a password?".

Definition ERR_PROCESSING : str := u "❌ Error processing file. Please try again.".
Definition ERR_UNEXPECTED_RETRY : str := u "❌ Unexpected error. Please try again.".
Definition NO_FILE_IN_PROGRESS : str := u "❌ No file in progress. Send a file first.".
Definition ENTER_PASSWORD : str :=
  u "🔐 Enter a password for your file:" ++ NL ++ NL
  ++ u "Just send the password as a message.".
Definition ERR_CHOICE : str := u "❌ Error processing choice".
Definition ERR_UNEXPECTED : str := u "❌ Unexpected error".
Definition PASSWORD_EMPTY : str := u "❌ Password cannot be empty. Please try again:".
Definition ERR_SETTING_PASSWORD : str := u "❌ Error setting password. Please try again.".
Definition FILE_NOT_FOUND : str := u "❌ File not found".
Definition LINKS_GENERATED : str := u "✅ Links generated!".
Definition ERR_GENERATING_LINKS : str := u "❌ Error generating links. Please try again.".
Definition PLEASE_SEND_FILE : str :=
  u "📤 Please send a file (document, video, or audio) or use /start for help.".

Definition pwd_no : str := u "pwd_no".
Definition pwd_yes : str := u "pwd_yes".
Definition yes : str := u "yes".

(** ** Handler 1: start command *)

Definition start_handler (env : Env) (message : Message) : M unit :=
  let user_id := from_user message in
  _ ← get_state user_id;
  platform [reply_text user_id WELCOME].

(** ** Handler 2: file upload *)

Definition file_upload_flow (env : Env) (message : Message)
    (file_name file_id : str) (file_size : Z) : M unit :=
  let user_id := from_user message in
  try_except
    ((* Step 1: processing indicator *)
     platform [reply_text user_id PROCESSING];;
     (* Step 2: forward to the storage channel *)
     platform [forward_messages (STORAGE_CHANNEL_ID env) user_id (id message)];;
     (* Step 3: generate the file key *)
     let file_key := token_urlsafe env in
     (* Step 4: store the metadata *)
     let metadata :=
       storage.mkFileMetadata file_key file_id file_name file_size user_id
         (stored_message_id env) false None (utcnow env) in
     _ ← store_file metadata;
     (* Step 5: update the user's state *)
     set_file_info user_id file_key file_id file_name file_size;;
     (* Step 6: ask about password protection *)
     platform [edit_text user_id (file_received env file_name file_size file_key)
                 (Some keyboards.password_choice_keyboard)])
    (fun e =>
       match e with
       | RpcError => platform [reply_text user_id ERR_PROCESSING]
       | Exception => platform [reply_text user_id ERR_UNEXPECTED_RETRY]
       end).

(** The [if message.document: ... elif message.video: ... elif
    message.audio: ... else: return] chain: file name, file id and size. *)
Definition file_info (message : Message) : option (str * str * Z) :=
  match document message, video message, audio message with
  | Some file_obj, _, _ =>
      Some (or_else (file_name file_obj) (u "document"),
            file_id file_obj, file_size file_obj)
  | None, Some file_obj, _ =>
      Some (or_else (file_name file_obj) (u "video_" ++ take 8 (file_unique_id file_obj)),
            file_id file_obj, file_size file_obj)
  | None, None, Some file_obj =>
      Some (or_else (file_name file_obj) (u "audio_" ++ take 8 (file_unique_id file_obj)),
            file_id file_obj, file_size file_obj)
  | None, None, None => None
  end.

Definition file_upload_handler (env : Env) (message : Message) : M unit :=
  match file_info message with
  | Some (file_name, file_id, file_size) =>
      file_upload_flow env message file_name file_id file_size
  | None => mret tt
  end.

(** ** Helper: deliver links *)

(** Report [text] on the channel the delivery came through: an alert on
    the callback query when there is one, else a reply to the message. *)
Definition report (callback_query : option CallbackQuery) (message : option Message)
    (text : str) : M unit :=
  match callback_query, message with
  | Some cq, _ => platform [answer (cq_from_user cq) (Some text) true]
  | None, Some m => platform [reply_text (from_user m) text]
  | None, None => raise Exception
  end.

Definition _deliver_links (env : Env) (user_id : Z) (state : states.UserState)
    (has_password : bool) (password : option str)
    (callback_query : option CallbackQuery) (message : option Message) : M unit :=
  try_except
    (stream_link ← or_raise (links.generate_stream_link (str_of_opt (states.file_key state)));
     download_link ← or_raise (links.generate_download_link (str_of_opt (states.file_key state)));
     metadata ← get_file (states.file_key state);
     match metadata with
     | None => report callback_query message FILE_NOT_FOUND
     | Some metadata =>
         bot_username ← get_me env;
         tg_link ← or_raise (links.generate_tg_link bot_username
                               (storage.message_id_in_storage metadata));
         let links_message :=
           links.format_links_message
             (str_of_opt (states.file_name state)) (str_of_opt (states.file_key state))
             has_password (Some stream_link) (Some download_link) (Some tg_link) in
         match callback_query, message with
         | Some cq, _ =>
             platform [edit_text (cq_from_user cq) links_message None];;
             platform [answer (cq_from_user cq) (Some LINKS_GENERATED) false]
         | None, Some m => platform [reply_text (from_user m) links_message]
         | None, None => raise Exception
         end;;
         clear_state user_id
     end)
    (fun _ => report callback_query message ERR_GENERATING_LINKS).

(** ** Handler 3: password choice callback *)

Definition password_choice_callback (env : Env) (callback_query : CallbackQuery) : M unit :=
  let user_id := cq_from_user callback_query in
  let choice := data callback_query in
  state ← get_state user_id;
  if negb (truthy (states.file_key state)) then
    platform [answer user_id (Some NO_FILE_IN_PROGRESS) true]
  else
    try_except
      (if decide (choice = pwd_no) then
         _deliver_links env user_id state false None (Some callback_query) None
       else if decide (choice = pwd_yes) then
         set_awaiting_password user_id true;;
         set_password_choice user_id yes;;
         platform [edit_text user_id ENTER_PASSWORD None];;
         platform [answer user_id None false]
       else mret tt)
      (fun e =>
         match e with
         | RpcError => platform [answer user_id (Some ERR_CHOICE) true]
         | Exception => platform [answer user_id (Some ERR_UNEXPECTED) true]
         end).

(** ** Handler 4: password input *)

Definition password_input_handler (env : Env) (message : Message) : M unit :=
  let user_id := from_user message in
  state ← get_state user_id;
  if negb (states.awaiting_password state) then mret tt
  else
    (* message.text.strip() on a message without text raises *)
    text ← or_raise (text message);
    let password := strip text in
    if negb (truthy (Some password)) || (Z.of_nat (length password) <? 1) then
      platform [reply_text user_id PASSWORD_EMPTY]
    else
      try_except
        (_ ← update_password (states.file_key state) password;
         _deliver_links env user_id state true (Some password) None (Some message))
        (fun _ => platform [reply_text user_id ERR_SETTING_PASSWORD]).

(** ** Catch-all handler *)

Definition default_handler (env : Env) (message : Message) : M unit :=
  let user_id := from_user message in
  state ← get_state user_id;
  if negb (states.awaiting_password state) then
    platform [reply_text user_id PLEASE_SEND_FILE]
  else mret tt.

(** ** Dispatch *)

(** Inbound events, already classified by the handlers' filters: the
    first handler whose filter matches runs, and no other. *)
Inductive Event :=
| start (message : Message)            (* /start in a private chat *)
| upload (message : Message)           (* a document, video or audio *)
| press (callback_query : CallbackQuery)   (* a pwd_yes / pwd_no button *)
| message_in (message : Message)       (* any other private message *)
| unmatched (message : Message).

Definition handler (env : Env) (ev : Event) : M unit :=
  match ev with
  | start m => start_handler env m
  | upload m => file_upload_handler env m
  | press cq => password_choice_callback env cq
  | message_in m => password_input_handler env m
  | unmatched m => default_handler env m
  end.

(** One event: the handler runs against the singletons; an exception that
    escapes it is logged by the dispatcher and goes no further. *)
Definition exec (m : M unit) (env : Env) (w : World) : World * list Action :=
  let '(_, c) := m (mkCtx w [] (faults env)) in (world c, sent c).

Definition handle (env : Env) (ev : Event) (w : World) : World * list Action :=
  exec (handler env ev) env w.

(** Events in arrival order; the actions accumulate. *)
Fixpoint run (w : World) (evs : list (Env * Event)) : World * list Action :=
  match evs with
  | [] => (w, [])
  | (env, ev) :: evs' =>
      let '(w1, out1) := handle env ev w in
      let '(w2, out2) := run w1 evs' in
      (w2, out1 ++ out2)
  end.

(** The user's session as a later handler would find it. *)
Definition session (w : World) (uid : Z) : option states.UserState :=
  states.states (state_manager w) !! uid.

Definition record (w : World) (file_key : str) : option storage.FileMetadata :=
  storage.get_file (file_storage w) file_key.

(** ** Values the handlers build, named for the statements below *)

(** The links message delivery builds for a session and its record. *)
Definition links_message_of (env : Env) (s : states.UserState) (k : str)
    (md : storage.FileMetadata) (hp : bool) : str :=
  links.format_links_message (str_of_opt (states.file_name s)) k hp
    (Some (u "https://stream.example.com/" ++ k))
    (Some (u "https://download.example.com/" ++ k))
    (Some (u "https://t.me/" ++ me_username env ++ u "/"
             ++ str_of_int (storage.message_id_in_storage md))).

(** The record [file_upload_handler] stores for an upload. *)
Definition metadata_of (env : Env) (m : Message) (name fid : str) (size : Z) :
    storage.FileMetadata :=
  storage.mkFileMetadata (token_urlsafe env) fid name size (from_user m)
    (stored_message_id env) false None (utcnow env).

(** The fields a session takes from an upload; the others are kept. *)
Definition uploaded (old : states.UserState) (k fid name : str) (size : Z) :
    states.UserState :=
  states.mkUserState (states.user_id old) (Some k) (Some fid) (Some name) (Some size)
    (states.awaiting_password old) (states.password_choice old) (states.context old).

(** The record after [update_password]. *)
Definition protected (md : storage.FileMetadata) (p : str) : storage.FileMetadata :=
  storage.mkFileMetadata (storage.file_key md) (storage.file_id md) (storage.file_name md)
    (storage.file_size md) (storage.user_id md) (storage.message_id_in_storage md)
    true (Some p) (storage.created_at md).

(** ** Sample inputs *)

Definition sample_env (key : str) : Env :=
  mkEnv [] key (u "2024-05-01T12:00:00") 42 (u "mybot") (-1001234) (fun _ => u "1.00").

Definition sample_document (uid : Z) (name : str) : Message :=
  mkMessage uid 10 None (Some (mkMedia (Some name) (u "FILE-ID") (u "UNIQUE-ID") 1048576))
    None None.

Definition sample_text (uid : Z) (t : str) : Message :=
  mkMessage uid 11 (Some t) None None None.

Definition key_A : str := u "Zm9vYmFyYmF6cXV4MTIzNA".
Definition key_B : str := u "c2Vjb25kLWtleS0wMDAwMQ".

Definition doc_A : Message := sample_document 7 (u "report.pdf").
Definition doc_B : Message := sample_document 7 (u "photo.png").

(** User 7 has uploaded [doc_A]. *)
Definition world_A : World := fst (handle (sample_env key_A) (upload doc_A) initial).

Definition session_A : states.UserState :=
  states.mkUserState 7 (Some key_A) (Some (u "FILE-ID")) (Some (u "report.pdf"))
    (Some 1048576) false None [].

Definition record_A : storage.FileMetadata :=
  metadata_of (sample_env key_A) doc_A (u "report.pdf") (u "FILE-ID") 1048576.

(** The same, after the record was removed from the store by hand. *)
Definition world_A_removed : World :=
  mkWorld (state_manager world_A)
    (snd (storage.delete_file (file_storage world_A) key_A)).

(** The same as [world_A], after the set-password button. *)
Definition world_A_yes : World :=
  fst (handle (sample_env key_A) (press (mkCallbackQuery 7 pwd_yes)) world_A).

Definition session_A_yes : states.UserState :=
  states.mkUserState 7 (Some key_A) (Some (u "FILE-ID")) (Some (u "report.pdf"))
    (Some 1048576) true (Some yes) [].

End bot.

(* ===================================================================== *)
(** * Invariants and outcomes, for the statements on whole runs *)
(* ===================================================================== *)

Module invariants.

Import pyrogram bot.

(** Every record is filed under its own [file_key]. *)
Definition keyed (fs : storage.FileStorage) : Prop :=
  forall k md, storage.get_file fs k = Some md -> storage.file_key md = k.

(** What was last written to disk is what is in memory. *)
Definition saved (fs : storage.FileStorage) : Prop :=
  storage.disk fs = storage.data fs.

(** The user an event comes from. *)
Definition user_of (ev : Event) : Z :=
  match ev with
  | start m | upload m | message_in m | unmatched m => from_user m
  | press cq => cq_from_user cq
  end.

(** [w] after [get_state uid]: the user's session exists, empty if it had
    to be created. *)
Definition touch (w : World) (uid : Z) : World :=
  mkWorld (snd (states.get_state (state_manager w) uid)) (file_storage w).

(** [w] after [clear_state uid]. *)
Definition cleared (w : World) (uid : Z) : World :=
  mkWorld (states.clear_state (state_manager w) uid) (file_storage w).

(** The first [n] platform calls of a script all succeed. *)
Definition all_ok (n : nat) (sc : list (option exn)) : bool :=
  forallb (fun o => match o with None => true | Some _ => false end) (take n sc).

(** Platform calls a delivery makes: [get_me], then [edit_text] and
    [answer] on a callback query, or [reply_text] on a message. *)
Definition delivery_calls (callback_query : option CallbackQuery) : nat :=
  match callback_query with
  | Some _ => 3
  | None => 2
  end.

(** The store after [password_input_handler] took [password] for the
    session [s]. *)
Definition with_password_for (fs : storage.FileStorage) (s : states.UserState)
    (password : str) : storage.FileStorage :=
  match states.file_key s with
  | Some k => snd (storage.update_password fs k password)
  | None => fs
  end.

(** What one event can do to the two singletons. *)
Inductive outcome (env : Env) (w : World) : Event -> World -> Prop :=
| nothing ev :
    outcome env w ev w
| session_created ev :
    outcome env w ev (touch w (user_of ev))
| file_registered m name fid size :
    file_info m = Some (name, fid, size) ->
    outcome env w (upload m)
      (mkWorld
         (states.set_file_info (state_manager w) (from_user m)
            (token_urlsafe env) fid name size)
         (snd (storage.store_file (file_storage w) (metadata_of env m name fid size))))
| password_requested cq s :
    session w (cq_from_user cq) = Some s ->
    truthy (states.file_key s) = true ->
    data cq = pwd_yes ->
    outcome env w (press cq)
      (mkWorld
         (states.mkStateManager
            (<[cq_from_user cq :=
                 states.with_password_choice (Some yes)
                   (states.with_awaiting_password true s)]>
               (states.states (state_manager w))))
         (file_storage w))
| delivered_without_password cq s :
    session w (cq_from_user cq) = Some s ->
    truthy (states.file_key s) = true ->
    data cq = pwd_no ->
    outcome env w (press cq) (cleared w (cq_from_user cq))
| password_stored m s t :
    session w (from_user m) = Some s ->
    states.awaiting_password s = true ->
    text m = Some t ->
    strip t <> [] ->
    outcome env w (message_in m)
      (mkWorld (state_manager w) (with_password_for (file_storage w) s (strip t)))
| delivered_with_password m s t :
    session w (from_user m) = Some s ->
    states.awaiting_password s = true ->
    text m = Some t ->
    strip t <> [] ->
    outcome env w (message_in m)
      (cleared (mkWorld (state_manager w) (with_password_for (file_storage w) s (strip t)))
         (from_user m)).

(** A stored password is not empty and has no whitespace at its ends. *)
Definition password_ok (p : str) : Prop :=
  p <> [] /\ strip p = p.

(** A record as the bot writes them: under its own key, protected exactly
    when it carries a password, and that password well-formed. *)
Definition record_ok (k : str) (md : storage.FileMetadata) : Prop :=
  storage.file_key md = k
  /\ (storage.has_password md = true <-> is_Some (storage.password md))
  /\ (forall p, storage.password md = Some p -> password_ok p).

(** A session as the bot keeps them. *)
Definition session_ok (w : World) (uid : Z) (s : states.UserState) : Prop :=
  states.user_id s = uid
  /\ states.context s = []
  /\ (states.awaiting_password s = true <-> states.password_choice s = Some yes)
  /\ (states.password_choice s = None \/ states.password_choice s = Some yes)
  /\ match states.file_key s with
     | None => s = states.new_UserState uid
     | Some k =>
         is_Some (record w k)
         /\ is_Some (states.file_id s)
         /\ is_Some (states.file_name s)
         /\ is_Some (states.file_size s)
     end.

Definition consistent (w : World) : Prop :=
  (forall uid s, session w uid = Some s -> session_ok w uid s)
  /\ (forall k md, record w k = Some md -> record_ok k md).

(** What [file_upload_handler] replies when a platform call raised [e]. *)
Definition upload_error (e : exn) : str :=
  match e with
  | RpcError => ERR_PROCESSING
  | Exception => ERR_UNEXPECTED_RETRY
  end.

(** [sample_env] with a platform that fails as [sc] says. *)
Definition faulty_env (key : str) (sc : list (option exn)) : Env :=
  mkEnv sc key (u "2024-05-01T12:00:00") 42 (u "mybot") (-1001234) (fun _ => u "1.00").

End invariants.

(* ===================================================================== *)
(** * Lemmas on the built-ins *)
(* ===================================================================== *)

Example u_ascii : u "No" = [78; 111]%N.
Proof. reflexivity. Qed.

Example u_emoji : u "❌ ▶️" = [10060; 32; 9654; 65039]%N.
Proof. reflexivity. Qed.

Example str_of_int_42 :
  str_of_int 42 = u "42" /\ str_of_int 0 = u "0" /\ str_of_int (-7) = u "-7".
Proof. repeat split; reflexivity. Qed.

Example format_ex :
  format (u "a{x}b{{c}}{y}") [(u "x", u "1"); (u "y", u "2")] = Some (u "a1b{c}2").
Proof. reflexivity. Qed.

(** ** Occurrence of one string in another *)

Lemma contains_refl (x : str) : contains x x.
Proof. exists [], []. by rewrite app_nil_r. Qed.

Lemma contains_app_l (s t x : str) : contains s x -> contains (s ++ t) x.
Proof.
  intros (pre & post & ->). exists pre, (post ++ t).
  by rewrite <- !app_assoc.
Qed.

Lemma contains_app_r (s t x : str) : contains t x -> contains (s ++ t) x.
Proof.
  intros (pre & post & ->). exists (s ++ pre), post.
  by rewrite <- !app_assoc.
Qed.

Lemma contains_nil (s : str) : contains s [].
Proof. by exists [], s. Qed.

Create HintDb occurs.
#[local] Hint Resolve contains_refl contains_app_l contains_app_r contains_nil : occurs.

Lemma find_contains (s x : str) : find s x = true -> contains s x.
Proof.
  assert (Hsw : forall s x, starts_with s x = true -> exists post, s = x ++ post).
  { clear. intros s x; revert s. induction x as [|c x IH]; intros s H.
    - by exists s.
    - destruct s as [|d s]; [done|]. simpl in H.
      apply andb_true_iff in H as [Hc Hs]. apply N.eqb_eq in Hc as ->.
      destruct (IH _ Hs) as [post ->]. by exists post. }
  induction s as [|d s IH]; intros H.
  - destruct x; [apply contains_nil | done].
  - change (starts_with (d :: s) x || find s x = true) in H.
    apply orb_true_iff in H as [H|H].
    + destruct (Hsw _ _ H) as [post E]. exists [], post. done.
    + destruct (IH H) as (pre & post & ->). by exists (d :: pre), post.
Qed.

(** ** [str.strip] *)

Lemma lstrip_split (s : str) :
  exists p, s = p ++ lstrip s /\ Forall (fun c => isspace c = true) p.
Proof.
  induction s as [|c s (p & E & Hp)]; simpl.
  - by exists [].
  - destruct (isspace c) eqn:Hc.
    + exists (c :: p). split; [simpl; congruence | by constructor].
    + by exists [].
Qed.

Lemma lstrip_head (s : str) c r : lstrip s = c :: r -> isspace c = false.
Proof.
  induction s as [|d s IH]; simpl; [done|].
  destruct (isspace d) eqn:Hd; [done|]. by intros [= <- _].
Qed.

Lemma lstrip_nil (s : str) : lstrip s = [] <-> Forall (fun c => isspace c = true) s.
Proof.
  induction s as [|d s IH]; simpl; [by split|].
  destruct (isspace d) eqn:Hd.
  - rewrite IH. split; [by constructor | by inversion 1].
  - split; [done|]. inversion 1; congruence.
Qed.

Lemma rstrip_split (s : str) :
  exists p, s = rstrip s ++ p /\ Forall (fun c => isspace c = true) p.
Proof.
  unfold rstrip. destruct (lstrip_split (rev s)) as (p & E & Hp).
  exists (rev p). split.
  - rewrite <- rev_app_distr, <- E. by rewrite rev_involutive.
  - by apply Forall_rev.
Qed.

Lemma rstrip_last (s : str) c : last (rstrip s) = Some c -> isspace c = false.
Proof.
  unfold rstrip. intros [l' E]%last_Some.
  apply (f_equal (@rev N)) in E. rewrite rev_involutive, rev_unit in E.
  by eapply lstrip_head.
Qed.

Lemma strip_head (s : str) c r : strip s = c :: r -> isspace c = false.
Proof.
  unfold strip. intros H.
  destruct (rstrip_split (lstrip s)) as (p & E & _). rewrite H in E.
  by eapply lstrip_head.
Qed.

Lemma strip_last (s : str) c : last (strip s) = Some c -> isspace c = false.
Proof. apply rstrip_last. Qed.

Lemma strip_nil (s : str) : strip s = [] <-> Forall (fun c => isspace c = true) s.
Proof.
  unfold strip. split.
  - intros H. destruct (rstrip_split (lstrip s)) as (p & E & Hp).
    rewrite H in E. simpl in E. destruct (lstrip_split s) as (q & E' & Hq).
    rewrite E'. apply Forall_app. split; [done | by rewrite E].
  - intros H. apply lstrip_nil in H. by rewrite H.
Qed.

(** ** links.py *)

Lemma generate_stream_link_eq (k : str) :
  links.generate_stream_link k = Some (u "https://stream.example.com/" ++ k).
Proof.
  transitivity (Some (u "https://stream.example.com/" ++ k ++ [])).
  - vm_compute. reflexivity.
  - by rewrite app_nil_r.
Qed.

Lemma generate_download_link_eq (k : str) :
  links.generate_download_link k = Some (u "https://download.example.com/" ++ k).
Proof.
  transitivity (Some (u "https://download.example.com/" ++ k ++ [])).
  - vm_compute. reflexivity.
  - by rewrite app_nil_r.
Qed.

Lemma format_tg_link (b ms : str) :
  format config.TG_LINK_PATTERN [(u "bot_username", b); (u "message_id", ms)]
  = Some (u "https://t.me/" ++ b ++ u "/" ++ ms).
Proof.
  transitivity (Some (u "https://t.me/" ++ b ++ u "/" ++ ms ++ [])).
  - vm_compute. reflexivity.
  - by rewrite app_nil_r.
Qed.

Lemma generate_tg_link_eq (b : str) (m : Z) :
  links.generate_tg_link b m = Some (u "https://t.me/" ++ b ++ u "/" ++ str_of_int m).
Proof. apply format_tg_link. Qed.

Lemma Some_app_inv (p a b : str) : Some (p ++ a) = Some (p ++ b) -> a = b.
Proof. intros [= E]. by apply app_inv_head in E. Qed.

Lemma generate_stream_link_inj (a b : str) :
  links.generate_stream_link a = links.generate_stream_link b -> a = b.
Proof. rewrite !generate_stream_link_eq. apply Some_app_inv. Qed.

Lemma generate_download_link_inj (a b : str) :
  links.generate_download_link a = links.generate_download_link b -> a = b.
Proof. rewrite !generate_download_link_eq. apply Some_app_inv. Qed.

Lemma contains_app2 (a b r : str) : contains (a ++ b ++ r) (a ++ b).
Proof. exists [], r. by rewrite <- app_assoc. Qed.

Lemma link_line_contains (label : str) (l : str) : contains (links.link_line label (Some l)) l.
Proof.
  destruct l as [|c l]; [apply contains_nil|].
  unfold links.link_line, truthy, str_of_opt.
  apply contains_app_r, contains_app_l, contains_refl.
Qed.

#[local] Hint Resolve contains_app2 link_line_contains : occurs.

Lemma format_links_message_contains (name key : str) (flag : bool) (s d t : str) :
  let msg := links.format_links_message name key flag (Some s) (Some d) (Some t) in
  contains msg name /\ contains msg key
  /\ contains msg (u "🔒 **Password Protected:** " ++ (if flag then u "Yes" else u "No"))
  /\ contains msg s /\ contains msg d /\ contains msg t.
Proof.
  cbv zeta. unfold links.format_links_message.
  repeat split; auto 20 with occurs.
Qed.

(** ** Running handlers *)

Import pyrogram bot.

Ltac unfold_bot :=
  cbv beta iota zeta delta
    [handle exec handler start_handler file_upload_handler file_upload_flow
     password_choice_callback password_input_handler default_handler
     _deliver_links report get_me platform try_except or_raise raise
     on_states on_storage get_state set_file_info set_awaiting_password
     set_password_choice clear_state store_file get_file update_password
     mbind mret M_bind M_ret option_bind
     session record
     world sent script state_manager file_storage
     faults token_urlsafe utcnow stored_message_id me_username STORAGE_CHANNEL_ID
     cq_from_user data from_user id text
     states.get_state states.assign states.set_file_info states.set_awaiting_password
     states.set_password_choice states.clear_state states.states
     storage.store_file storage.get_file storage.update_password storage._save
     storage.data storage.disk
     fst snd negb orb andb].

(** The same, stopping at the calls of [_deliver_links]. *)
Ltac step_bot :=
  cbv beta iota zeta delta
    [handle exec handler start_handler file_upload_handler file_upload_flow
     password_choice_callback password_input_handler default_handler
     get_me platform try_except or_raise raise
     on_states on_storage get_state set_file_info set_awaiting_password
     set_password_choice clear_state store_file get_file update_password
     mbind mret M_bind M_ret option_bind
     session record
     world sent script state_manager file_storage
     faults token_urlsafe utcnow stored_message_id me_username STORAGE_CHANNEL_ID
     cq_from_user data from_user id text
     states.get_state states.assign states.set_file_info states.set_awaiting_password
     states.set_password_choice states.clear_state states.states
     storage.store_file storage.get_file storage.update_password storage._save
     storage.data storage.disk
     fst snd negb orb andb].

Tactic Notation "step_bot" "in" hyp(H) :=
  cbv beta iota zeta delta
    [handle exec handler start_handler file_upload_handler file_upload_flow
     password_choice_callback password_input_handler default_handler
     get_me platform try_except or_raise raise
     on_states on_storage get_state set_file_info set_awaiting_password
     set_password_choice clear_state store_file get_file update_password
     mbind mret M_bind M_ret option_bind
     session record
     world sent script state_manager file_storage
     faults token_urlsafe utcnow stored_message_id me_username STORAGE_CHANNEL_ID
     cq_from_user data from_user id text
     states.get_state states.assign states.set_file_info states.set_awaiting_password
     states.set_password_choice states.clear_state states.states
     storage.store_file storage.get_file storage.update_password storage._save
     storage.data storage.disk
     fst snd negb orb andb] in H.

Tactic Notation "unfold_bot" "in" hyp(H) :=
  cbv beta iota zeta delta
    [handle exec handler start_handler file_upload_handler file_upload_flow
     password_choice_callback password_input_handler default_handler
     _deliver_links report get_me platform try_except or_raise raise
     on_states on_storage get_state set_file_info set_awaiting_password
     set_password_choice clear_state store_file get_file update_password
     mbind mret M_bind M_ret option_bind
     session record
     world sent script state_manager file_storage
     faults token_urlsafe utcnow stored_message_id me_username STORAGE_CHANNEL_ID
     cq_from_user data from_user id text
     states.get_state states.assign states.set_file_info states.set_awaiting_password
     states.set_password_choice states.clear_state states.states
     storage.store_file storage.get_file storage.update_password storage._save
     storage.data storage.disk
     fst snd negb orb andb] in H.

Lemma deliver_found_callback env w uid s k md hp pw cq sent0 :
  states.file_key s = Some k ->
  record w k = Some md ->
  _deliver_links env uid s hp pw (Some cq) None (mkCtx w sent0 []) =
    (Return tt,
     mkCtx (mkWorld (states.clear_state (state_manager w) uid) (file_storage w))
       ((sent0 ++ [edit_text (cq_from_user cq) (links_message_of env s k md hp) None])
        ++ [answer (cq_from_user cq) (Some LINKS_GENERATED) false]) []).
Proof.
  destruct w as [[sm] [dt dk]]. intros Hk Hr. unfold_bot in Hr.
  unfold _deliver_links, links_message_of. rewrite Hk.
  change (str_of_opt (Some k)) with k.
  rewrite generate_stream_link_eq, generate_download_link_eq.
  unfold_bot. rewrite Hr, generate_tg_link_eq.
  unfold_bot. by rewrite app_nil_r.
Qed.

Lemma deliver_found_message env w uid s k md hp pw m sent0 :
  states.file_key s = Some k ->
  record w k = Some md ->
  _deliver_links env uid s hp pw None (Some m) (mkCtx w sent0 []) =
    (Return tt,
     mkCtx (mkWorld (states.clear_state (state_manager w) uid) (file_storage w))
       (sent0 ++ [reply_text (from_user m) (links_message_of env s k md hp)]) []).
Proof.
  destruct w as [[sm] [dt dk]]. intros Hk Hr. unfold_bot in Hr.
  unfold _deliver_links, links_message_of. rewrite Hk.
  change (str_of_opt (Some k)) with k.
  rewrite generate_stream_link_eq, generate_download_link_eq.
  unfold_bot. rewrite Hr, generate_tg_link_eq.
  unfold_bot. by rewrite app_nil_r.
Qed.

(** Whatever the platform does, a delivery that finds no record leaves
    both singletons as they were. *)
Lemma deliver_not_found_world env w uid s hp pw cq m sent0 sc :
  states.file_key s ≫= storage.get_file (file_storage w) = None ->
  world (snd (_deliver_links env uid s hp pw cq m (mkCtx w sent0 sc))) = w.
Proof.
  destruct w as [[sm] [dt dk]]. intros Hr.
  unfold _deliver_links.
  destruct (links.generate_stream_link _), (links.generate_download_link _);
    unfold_bot; unfold_bot in Hr; rewrite ?Hr;
    destruct cq as [cq|], m as [m|]; unfold_bot;
    repeat (match goal with
            | |- context [match ?l with [] => _ | _ :: _ => _ end] => destruct l as [|[[]|] ?]
            end; unfold_bot); reflexivity.
Qed.

Lemma deliver_not_found_sent env w uid s hp pw cq m sent0 :
  states.file_key s ≫= storage.get_file (file_storage w) = None ->
  sent (snd (_deliver_links env uid s hp pw cq m (mkCtx w sent0 []))) =
    sent0 ++
    match cq, m with
    | Some q, _ => [answer (cq_from_user q) (Some FILE_NOT_FOUND) true]
    | None, Some msg => [reply_text (from_user msg) FILE_NOT_FOUND]
    | None, None => []
    end.
Proof.
  destruct w as [[sm] [dt dk]]. intros Hr.
  unfold _deliver_links.
  rewrite generate_stream_link_eq, generate_download_link_eq.
  unfold_bot; unfold_bot in Hr; rewrite ?Hr.
  destruct cq as [cq|], m as [m|]; unfold_bot; by rewrite ?app_nil_r.
Qed.

Lemma upload_ok env w m name fid size :
  file_info m = Some (name, fid, size) ->
  faults env = [] ->
  handle env (upload m) w =
    (mkWorld
       (states.set_file_info (state_manager w) (from_user m) (token_urlsafe env) fid name size)
       (snd (storage.store_file (file_storage w) (metadata_of env m name fid size))),
     [reply_text (from_user m) PROCESSING;
      forward_messages (STORAGE_CHANNEL_ID env) (from_user m) (id m);
      edit_text (from_user m) (file_received env name size (token_urlsafe env))
        (Some keyboards.password_choice_keyboard)]).
Proof.
  intros Hi Hf. destruct env as [fl tk now sid me ch mb]. unfold_bot in Hf. subst fl.
  destruct w as [[sm] [dt dk]].
  unfold handle, handler, file_upload_handler. rewrite Hi.
  unfold_bot. reflexivity.
Qed.

Lemma session_set_file_info sm uid k fid name size :
  states.states (states.set_file_info sm uid k fid name size) !! uid =
    Some (uploaded (fst (states.get_state sm uid)) k fid name size).
Proof.
  destruct sm as [sm]. unfold states.set_file_info, states.assign, states.get_state.
  cbn [states.states]. destruct (sm !! uid) as [s|]; cbn [states.states fst];
    by rewrite lookup_insert_eq.
Qed.

Lemma record_store_file fs md :
  storage.get_file (snd (storage.store_file fs md)) (storage.file_key md) = Some md.
Proof.
  destruct fs as [dt dk]. unfold storage.store_file, storage.get_file, storage._save.
  cbn [snd storage.data]. apply lookup_insert_eq.
Qed.

(** ** The two buttons *)

Lemma press_no_ok env w uid s k md :
  session w uid = Some s ->
  states.file_key s = Some k -> k <> [] ->
  record w k = Some md ->
  faults env = [] ->
  handle env (press (mkCallbackQuery uid pwd_no)) w =
    (mkWorld (states.mkStateManager (delete uid (states.states (state_manager w))))
       (file_storage w),
     [edit_text uid (links_message_of env s k md false) None;
      answer uid (Some LINKS_GENERATED) false]).
Proof.
  intros Hs Hk Hne Hr Hf.
  pose proof (deliver_found_callback env w uid s k md false None
                (mkCallbackQuery uid pwd_no) [] Hk Hr) as Hd.
  destruct env as [fl tk now sid me ch mb]. unfold_bot in Hf. subst fl.
  destruct w as [[sm] [dt dk]]. unfold_bot in Hs.
  step_bot. rewrite Hs, Hk. destruct k as [|c k]; [done|].
  cbv beta iota delta [truthy].
  destruct (decide (pwd_no = pwd_no)); [|done].
  step_bot. step_bot in Hd. rewrite Hd. unfold_bot. by rewrite Hs.
Qed.

Ltac case_script :=
  repeat (match goal with
          | |- context [match ?l with [] => _ | _ :: _ => _ end] =>
              destruct l as [|[[]|] ?]
          end; unfold_bot).

(** Under any behaviour of the platform, delivery either clears the
    user's session or changes nothing; it never writes to the store. *)
Lemma deliver_world env w uid s hp pw cq m sent0 sc :
  let w' := world (snd (_deliver_links env uid s hp pw cq m (mkCtx w sent0 sc))) in
  w' = w \/ w' = mkWorld (states.clear_state (state_manager w) uid) (file_storage w).
Proof.
  destruct w as [[sm] [dt dk]]. cbv zeta.
  unfold _deliver_links.
  destruct (links.generate_stream_link _), (links.generate_download_link _);
    unfold_bot;
    try (destruct (states.file_key s) as [k|]); unfold_bot;
    try (destruct (dt !! k) as [md|]); unfold_bot;
    destruct cq as [cq|], m as [m|]; unfold_bot; case_script;
    try (destruct (links.generate_tg_link _ _)); unfold_bot; case_script;
    auto.
Qed.

Lemma press_yes_world env w uid s :
  session w uid = Some s ->
  truthy (states.file_key s) = true ->
  fst (handle env (press (mkCallbackQuery uid pwd_yes)) w) =
    mkWorld
      (states.mkStateManager
         (<[uid := states.with_password_choice (Some yes) (states.with_awaiting_password true s)]>
            (states.states (state_manager w))))
      (file_storage w).
Proof.
  intros Hs Ht. destruct env as [fl tk now sid me ch mb].
  destruct w as [[sm] [dt dk]]. unfold_bot in Hs.
  step_bot. rewrite Hs, Ht. cbv beta iota.
  destruct (decide (pwd_yes = pwd_no)) as [E|_]; [by vm_compute in E|].
  destruct (decide (pwd_yes = pwd_yes)); [|done].
  unfold_bot. rewrite Hs. unfold_bot. rewrite lookup_insert_eq. unfold_bot.
  rewrite insert_insert_eq.
  case_script; reflexivity.
Qed.

Lemma press_no_world env w uid s :
  session w uid = Some s ->
  truthy (states.file_key s) = true ->
  let w' := fst (handle env (press (mkCallbackQuery uid pwd_no)) w) in
  w' = w \/
  w' = mkWorld (states.mkStateManager (delete uid (states.states (state_manager w))))
         (file_storage w).
Proof.
  intros Hs Ht. cbv zeta.
  destruct env as [fl tk now sid me ch mb].
  pose proof (deliver_world (mkEnv fl tk now sid me ch mb) w uid s false None
                (Some (mkCallbackQuery uid pwd_no)) None [] fl) as Hd.
  destruct w as [[sm] [dt dk]]. unfold_bot in Hs.
  step_bot. rewrite Hs, Ht. cbv beta iota.
  destruct (decide (pwd_no = pwd_no)); [|done].
  step_bot. step_bot in Hd. rewrite Hs in Hd.
  destruct (_deliver_links _ _ _ _ _ _ _ _) as [[[]|ex] [w' snt sc]];
    step_bot; step_bot in Hd; [done| destruct ex; case_script; done].
Qed.

(** ** Password input *)

Lemma update_password_present fs k p md :
  storage.get_file fs k = Some md ->
  storage.update_password fs k p =
    (true, storage.mkFileStorage (<[k := protected md p]> (storage.data fs))
             (<[k := protected md p]> (storage.data fs))).
Proof.
  destruct fs as [dt dk]. unfold storage.get_file, storage.update_password.
  cbn [storage.data]. by intros ->.
Qed.

Lemma update_password_absent fs k p :
  storage.get_file fs k = None -> storage.update_password fs k p = (false, fs).
Proof.
  destruct fs as [dt dk]. unfold storage.get_file, storage.update_password.
  cbn [storage.data]. by intros ->.
Qed.

Lemma text_rejected env w s m t :
  session w (from_user m) = Some s ->
  states.awaiting_password s = true ->
  text m = Some t ->
  strip t = [] ->
  fst (handle env (message_in m) w) = w
  /\ (faults env = [] ->
      handle env (message_in m) w = (w, [reply_text (from_user m) PASSWORD_EMPTY])).
Proof.
  intros Hs Ha Ht He. destruct env as [fl tk now sid me ch mb].
  destruct w as [[sm] [dt dk]]. unfold_bot in Hs.
  split; [|intros Hf; unfold_bot in Hf; subst fl];
    step_bot; destruct m as [fu mid tx dc vd au]; step_bot; step_bot in Hs;
    step_bot in Ht; rewrite Hs, Ha, Ht; step_bot; rewrite He;
    cbv beta iota delta [truthy orb]; unfold_bot; case_script; reflexivity.
Qed.

Lemma strip_accepted (t : str) :
  strip t <> [] ->
  negb (truthy (Some (strip t))) || (Z.of_nat (length (strip t)) <? 1) = false.
Proof.
  destruct (strip t) as [|c r]; [done|]. intros _.
  cbn [truthy negb orb]. apply Z.ltb_ge. cbn [length]. lia.
Qed.

(** Whatever the platform does afterwards, an accepted password has been
    written by [update_password] and nothing else touches the store. *)
Lemma text_accepted_storage env w s m t :
  session w (from_user m) = Some s ->
  states.awaiting_password s = true ->
  text m = Some t ->
  strip t <> [] ->
  file_storage (fst (handle env (message_in m) w)) =
    match states.file_key s with
    | Some k => snd (storage.update_password (file_storage w) k (strip t))
    | None => file_storage w
    end.
Proof.
  intros Hs Ha Ht He%strip_accepted. destruct env as [fl tk now sid me ch mb].
  set (env := mkEnv fl tk now sid me ch mb).
  set (fs' := match states.file_key s with
              | Some k => snd (storage.update_password (file_storage w) k (strip t))
              | None => file_storage w
              end).
  pose proof (deliver_world env (mkWorld (state_manager w) fs') (from_user m) s true
                (Some (strip t)) None (Some m) [] fl) as Hd.
  subst env fs'.
  destruct w as [[sm] [dt dk]]. unfold_bot in Hs.
  destruct m as [fu mid tx dc vd au]. step_bot in Hs. step_bot in Ht. subst tx.
  step_bot. rewrite Hs, Ha. step_bot. step_bot in He. rewrite He.
  step_bot in Hd.
  destruct (states.file_key s) as [k|].
  - destruct (dt !! k) as [md|]; step_bot; step_bot in Hd;
      destruct (_deliver_links _ _ _ _ _ _ _ _) as [[[]|ex] [w' snt sc]];
      step_bot; step_bot in Hd; case_script; destruct Hd as [-> | ->]; reflexivity.
  - step_bot; step_bot in Hd;
      destruct (_deliver_links _ _ _ _ _ _ _ _) as [[[]|ex] [w' snt sc]];
      step_bot; step_bot in Hd; case_script; destruct Hd as [-> | ->]; reflexivity.
Qed.

Lemma text_accepted_ok env w s k md m t :
  session w (from_user m) = Some s ->
  states.awaiting_password s = true ->
  states.file_key s = Some k ->
  record w k = Some md ->
  text m = Some t ->
  strip t <> [] ->
  faults env = [] ->
  handle env (message_in m) w =
    (mkWorld (states.mkStateManager (delete (from_user m) (states.states (state_manager w))))
       (snd (storage.update_password (file_storage w) k (strip t))),
     [reply_text (from_user m) (links_message_of env s k (protected md (strip t)) true)]).
Proof.
  intros Hs Ha Hk Hr Ht He%strip_accepted Hf.
  assert (Hr' : record (mkWorld (state_manager w)
                          (snd (storage.update_password (file_storage w) k (strip t)))) k
                = Some (protected md (strip t))).
  { rewrite (update_password_present _ _ _ _ Hr). unfold record, storage.get_file.
    cbn [snd file_storage storage.data]. apply lookup_insert_eq. }
  pose proof (deliver_found_message env _ (from_user m) s k _ true (Some (strip t)) m []
                Hk Hr') as Hd.
  destruct env as [fl tk now sid me ch mb]. unfold_bot in Hf. subst fl.
  destruct w as [[sm] [dt dk]]. unfold_bot in Hs. unfold_bot in Hr.
  destruct m as [fu mid tx dc vd au]. step_bot in Hs. step_bot in Ht. subst tx.
  step_bot. rewrite Hs, Ha. step_bot. step_bot in He. rewrite He, Hk. step_bot. rewrite Hr.
  step_bot. step_bot in Hd. rewrite Hr in Hd. step_bot in Hd. rewrite Hd.
  unfold_bot. by rewrite Hs.
Qed.

(* ===================================================================== *)
(** * The specified properties *)
(* ===================================================================== *)

(** ** Metadata store *)

Lemma apply_keeps_absent fs o k :
  storage.get_file fs k = None ->
  k ∉ storage.stored_keys [o] ->
  storage.get_file (storage.apply fs o) k = None.
Proof.
  destruct fs as [dt dk]. unfold storage.get_file. cbn [storage.data].
  intros Hk Hn. destruct o as [m|k' p|k']; cbn [storage.apply].
  - unfold storage.store_file, storage._save. cbn [snd storage.data].
    rewrite lookup_insert_ne; [done|]. intros E. apply Hn. cbn. rewrite E. left.
  - unfold storage.update_password, storage._save. cbn [storage.data].
    destruct (dt !! k') as [m|] eqn:Hk'; cbn [snd storage.data]; [|done].
    rewrite lookup_insert_ne; [done|]. congruence.
  - unfold storage.delete_file, storage._save. cbn [storage.data].
    destruct (dt !! k') as [m|] eqn:Hk'; cbn [snd storage.data]; [|done].
    destruct (decide (k' = k)) as [->|Hne];
      [apply lookup_delete_eq | by rewrite lookup_delete_ne].
Qed.

(** C5. Reading a key right after [store_file] wrote a record under it
    returns that record; a key that was absent at first and that no
    [store_file] call of a sequence of store operations carried is still
    absent afterwards. *)
Theorem C5_get_after_put :
  (forall fs r,
     storage.get_file (snd (storage.store_file fs r)) (storage.file_key r) = Some r
     /\ fst (storage.store_file fs r) = storage.file_key r)
  /\ (forall fs ops k,
        storage.get_file fs k = None ->
        k ∉ storage.stored_keys ops ->
        storage.get_file (storage.apply_all fs ops) k = None).
Proof.
  split.
  - intros fs r. split; [apply record_store_file | reflexivity].
  - intros fs ops. revert fs. induction ops as [|o ops IH]; intros fs k Hk Hn; [done|].
    cbn [storage.apply_all fold_left]. apply IH.
    + apply apply_keeps_absent; [done|].
      intros Hin. apply Hn. destruct o; cbn in Hin |- *;
        solve [ by apply not_elem_of_nil in Hin
              | apply list_elem_of_singleton in Hin as ->; left ].
    + intros Hin. apply Hn. destruct o; cbn; [by right | done | done].
Qed.

(** C6. [update_password] on an absent key answers false and returns the
    very same store (memory and disk); on a present key it answers true,
    the record read back is the old one with [has_password = true] and the
    given password and every other field as before, and every other key
    reads as before. *)
Theorem C6_update_password fs k p :
  (storage.get_file fs k = None -> storage.update_password fs k p = (false, fs))
  /\ (forall md, storage.get_file fs k = Some md ->
        fst (storage.update_password fs k p) = true
        /\ storage.get_file (snd (storage.update_password fs k p)) k =
             Some (storage.mkFileMetadata
                     (storage.file_key md) (storage.file_id md) (storage.file_name md)
                     (storage.file_size md) (storage.user_id md)
                     (storage.message_id_in_storage md)
                     true (Some p) (storage.created_at md))
        /\ (forall k', k' <> k ->
              storage.get_file (snd (storage.update_password fs k p)) k' =
              storage.get_file fs k')).
Proof.
  split; [apply update_password_absent|].
  intros md Hmd. rewrite (update_password_present _ _ _ _ Hmd).
  unfold storage.get_file. cbn [fst snd storage.data].
  repeat split.
  - apply lookup_insert_eq.
  - intros k' Hne. by rewrite lookup_insert_ne.
Qed.

(** ** Link formatter *)

(** C9. The stream and download links are the fixed prefixes followed by
    the key, the Telegram link is the fixed pattern with the bot name and
    the decimal message id, none of the three can fail, and the display
    block contains the file name, the key, the password line with Yes for
    a protected file and No otherwise, and each of the three links. *)
Theorem C9_link_formatter :
  (forall k, links.generate_stream_link k = Some (u "https://stream.example.com/" ++ k))
  /\ (forall k, links.generate_download_link k = Some (u "https://download.example.com/" ++ k))
  /\ (forall b m, links.generate_tg_link b m =
                    Some (u "https://t.me/" ++ b ++ u "/" ++ str_of_int m))
  /\ (forall name key flag s d t,
        let msg := links.format_links_message name key flag (Some s) (Some d) (Some t) in
        contains msg name /\ contains msg key
        /\ contains msg (u "🔒 **Password Protected:** " ++ (if flag then u "Yes" else u "No"))
        /\ contains msg s /\ contains msg d /\ contains msg t).
Proof.
  split; [exact generate_stream_link_eq|].
  split; [exact generate_download_link_eq|].
  split; [exact generate_tg_link_eq|].
  exact format_links_message_contains.
Qed.

Example links_abc123 :
  links.generate_stream_link (u "abc123") = Some (u "https://stream.example.com/abc123")
  /\ links.generate_download_link (u "abc123") = Some (u "https://download.example.com/abc123")
  /\ links.generate_tg_link (u "mybot") 42 = Some (u "https://t.me/mybot/42").
Proof. repeat split; vm_compute; reflexivity. Qed.

(** ** Conversation controller *)

Lemma contains_3 (p a b c q : str) : contains (p ++ a ++ b ++ c ++ q) (a ++ b ++ c).
Proof. exists p, q. by rewrite <- !app_assoc. Qed.

Lemma links_message_contains_key env s k md hp :
  contains (links_message_of env s k md hp) (u "🔑 **File Key:** `" ++ k ++ u "`")
  /\ contains (links_message_of env s k md hp) (u "https://stream.example.com/" ++ k)
  /\ contains (links_message_of env s k md hp) (u "https://download.example.com/" ++ k).
Proof.
  unfold links_message_of.
  destruct (format_links_message_contains (str_of_opt (states.file_name s)) k hp
              (u "https://stream.example.com/" ++ k)
              (u "https://download.example.com/" ++ k)
              (u "https://t.me/" ++ me_username env ++ u "/"
                 ++ str_of_int (storage.message_id_in_storage md)))
    as (_ & _ & _ & Hs & Hd & _).
  split; [|split; assumption].
  unfold links.format_links_message.
  do 5 apply contains_app_l. apply contains_3.
Qed.

Lemma session_cleared w uid :
  session (mkWorld (states.mkStateManager (delete uid (states.states (state_manager w))))
             (file_storage w)) uid = None
  /\ fst (states.get_state
            (states.mkStateManager (delete uid (states.states (state_manager w)))) uid)
     = states.new_UserState uid.
Proof.
  unfold session, states.get_state. cbn [state_manager states.states].
  by rewrite lookup_delete_eq.
Qed.

(** C1. A user whose session holds a pending key with its record in the
    store presses the no-password button while the platform works: the
    bot edits the prompt into a links message that shows exactly that key
    and carries the stream and download links of that key, and the
    session is gone afterwards, so the next [get_state] makes a fresh
    empty one.  The store is not touched. *)
Theorem C1_no_password_delivers_issued_key env w uid s k md :
  session w uid = Some s ->
  states.file_key s = Some k ->
  k <> [] ->
  record w k = Some md ->
  faults env = [] ->
  exists links_message w',
    handle env (press (mkCallbackQuery uid pwd_no)) w =
      (w', [edit_text uid links_message None; answer uid (Some LINKS_GENERATED) false])
    /\ contains links_message (u "🔑 **File Key:** `" ++ k ++ u "`")
    /\ contains links_message (u "https://stream.example.com/" ++ k)
    /\ contains links_message (u "https://download.example.com/" ++ k)
    /\ session w' uid = None
    /\ fst (states.get_state (state_manager w') uid) = states.new_UserState uid
    /\ file_storage w' = file_storage w.
Proof.
  intros Hs Hk Hne Hr Hf.
  eexists _, _. split; [by apply (press_no_ok env w uid s k md)|].
  destruct (links_message_contains_key env s k md false) as (H1 & H2 & H3).
  destruct (session_cleared w uid) as [H4 H5].
  repeat split; assumption.
Qed.

(** C7. Delivery for a session whose pending key has no record in the
    store: whatever the platform does, both singletons stay exactly as
    they were, so the session read back is the same one; when the
    platform works, the only thing sent is the not-found notice, on the
    channel the delivery came through. *)
Theorem C7_delivery_not_found env w uid s k hp pw cq m :
  session w uid = Some s ->
  states.file_key s = Some k ->
  record w k = None ->
  let after := exec (_deliver_links env uid s hp pw cq m) env w in
  fst after = w
  /\ states.get_state (state_manager (fst after)) uid = (s, state_manager w)
  /\ (faults env = [] ->
      snd after =
        match cq, m with
        | Some q, _ => [answer (cq_from_user q) (Some FILE_NOT_FOUND) true]
        | None, Some msg => [reply_text (from_user msg) FILE_NOT_FOUND]
        | None, None => []
        end).
Proof.
  intros Hs Hk Hr. cbv zeta.
  assert (Hnone : states.file_key s ≫= storage.get_file (file_storage w) = None).
  { rewrite Hk. exact Hr. }
  pose proof (deliver_not_found_world env w uid s hp pw cq m [] (faults env) Hnone) as Hw.
  pose proof (deliver_not_found_sent env w uid s hp pw cq m [] Hnone) as Hsent.
  unfold exec.
  destruct (_deliver_links env uid s hp pw cq m (mkCtx w [] (faults env))) as [r c] eqn:E.
  cbn [fst snd] in *. rewrite Hw. split; [done|]. split.
  - unfold states.get_state. unfold session in Hs. by rewrite Hs.
  - intros Hf. rewrite Hf in E. rewrite E in Hsent. exact Hsent.
Qed.

(** C8, as the code has it.  For a user with a pending file, the
    set-password button records the choice: the session afterwards has
    [password_choice = "yes"] and [awaiting_password = True], whatever the
    platform does.  The no-password button records nothing: it either
    removes the session (links delivered) or leaves it exactly as it
    was. *)
Theorem C8_choice_recorded_for_set_password_only env w uid s :
  session w uid = Some s ->
  truthy (states.file_key s) = true ->
  (exists s',
     session (fst (handle env (press (mkCallbackQuery uid pwd_yes)) w)) uid = Some s'
     /\ states.password_choice s' = Some yes
     /\ states.awaiting_password s' = true
     /\ states.file_key s' = states.file_key s)
  /\ (session (fst (handle env (press (mkCallbackQuery uid pwd_no)) w)) uid = None
      \/ session (fst (handle env (press (mkCallbackQuery uid pwd_no)) w)) uid = Some s).
Proof.
  intros Hs Ht. split.
  - rewrite (press_yes_world env w uid s Hs Ht).
    eexists. unfold session. cbn [state_manager states.states].
    rewrite lookup_insert_eq. split; [reflexivity|]. by destruct s.
  - destruct (press_no_world env w uid s Hs Ht) as [-> | ->].
    + by right.
    + left. apply session_cleared.
Qed.

Lemma upload_pending env w m name fid size :
  file_info m = Some (name, fid, size) ->
  faults env = [] ->
  let w' := fst (handle env (upload m) w) in
  session w' (from_user m) =
    Some (uploaded (fst (states.get_state (state_manager w) (from_user m)))
            (token_urlsafe env) fid name size)
  /\ record w' (token_urlsafe env) = Some (metadata_of env m name fid size).
Proof.
  intros Hi Hf. cbv zeta. rewrite (upload_ok env w m name fid size Hi Hf).
  unfold session, record. cbn [fst state_manager file_storage]. split.
  - apply session_set_file_info.
  - apply (record_store_file (file_storage w) (metadata_of env m name fid size)).
Qed.

(** C3.  The code does not do what is specified here.  A processed
    upload by a user who has a session overwrites the four pending-file
    fields (key, file id, name, size) with those of the new file and
    writes nothing else: [awaiting_password] and [password_choice] come
    out exactly as they went in, so a session that awaited a password
    still awaits one after the new upload instead of being reset to
    false and absent. *)
Theorem C3_upload_leaves_flags_as_they_were env w m name fid size s :
  file_info m = Some (name, fid, size) ->
  faults env = [] ->
  session w (from_user m) = Some s ->
  session (fst (handle env (upload m) w)) (from_user m) =
    Some (states.mkUserState (states.user_id s)
            (Some (token_urlsafe env)) (Some fid) (Some name) (Some size)
            (states.awaiting_password s) (states.password_choice s)
            (states.context s)).
Proof.
  intros Hi Hf Hs.
  destruct (upload_pending env w m name fid size Hi Hf) as [Hs' _].
  cbv zeta in Hs'. rewrite Hs'. unfold uploaded, states.get_state.
  unfold session in Hs. by rewrite Hs.
Qed.

Lemma links_message_of_uploaded env old k fid name size md hp :
  links_message_of env (uploaded old k fid name size) k md hp =
    links.format_links_message name k hp
      (Some (u "https://stream.example.com/" ++ k))
      (Some (u "https://download.example.com/" ++ k))
      (Some (u "https://t.me/" ++ me_username env ++ u "/"
               ++ str_of_int (storage.message_id_in_storage md))).
Proof. reflexivity. Qed.

Lemma upload_then_no_password eB eC w1 mB nameB fidB sizeB :
  file_info mB = Some (nameB, fidB, sizeB) ->
  faults eB = [] -> faults eC = [] ->
  token_urlsafe eB <> [] ->
  let w2 := fst (handle eB (upload mB) w1) in
  handle eC (press (mkCallbackQuery (from_user mB) pwd_no)) w2 =
    (mkWorld (states.mkStateManager (delete (from_user mB) (states.states (state_manager w2))))
       (file_storage w2),
     [edit_text (from_user mB)
        (links.format_links_message nameB (token_urlsafe eB) false
           (Some (u "https://stream.example.com/" ++ token_urlsafe eB))
           (Some (u "https://download.example.com/" ++ token_urlsafe eB))
           (Some (u "https://t.me/" ++ me_username eC ++ u "/"
                    ++ str_of_int (stored_message_id eB)))) None;
      answer (from_user mB) (Some LINKS_GENERATED) false]).
Proof.
  intros HiB HfB HfC Hne w2.
  destruct (upload_pending eB w1 mB nameB fidB sizeB HiB HfB) as [Hs2 Hr2].
  fold w2 in Hs2, Hr2.
  rewrite (press_no_ok eC w2 (from_user mB) _ _ _ Hs2 eq_refl Hne Hr2 HfC).
  rewrite links_message_of_uploaded. reflexivity.
Qed.

(** C4. Two uploads by one user, then the no-password button, the
    platform working throughout and the two keys distinct: after the
    second upload the pending fields are those of the second file; the
    links message is the one built from the second file's name, key and
    archive message, it shows the second key, and its stream and download
    links are not those of the first key; the session is gone
    afterwards. *)
Theorem C4_last_upload_wins eA eB eC w mA mB nameA fidA sizeA nameB fidB sizeB :
  from_user mA = from_user mB ->
  file_info mA = Some (nameA, fidA, sizeA) ->
  file_info mB = Some (nameB, fidB, sizeB) ->
  faults eA = [] -> faults eB = [] -> faults eC = [] ->
  token_urlsafe eB <> [] ->
  token_urlsafe eA <> token_urlsafe eB ->
  let uid := from_user mB in
  let kA := token_urlsafe eA in
  let kB := token_urlsafe eB in
  let w1 := fst (handle eA (upload mA) w) in
  let w2 := fst (handle eB (upload mB) w1) in
  let after := handle eC (press (mkCallbackQuery uid pwd_no)) w2 in
  let links_message :=
    links.format_links_message nameB kB false
      (Some (u "https://stream.example.com/" ++ kB))
      (Some (u "https://download.example.com/" ++ kB))
      (Some (u "https://t.me/" ++ me_username eC ++ u "/"
               ++ str_of_int (stored_message_id eB))) in
  (exists s2, session w2 uid = Some s2
     /\ states.file_key s2 = Some kB /\ states.file_id s2 = Some fidB
     /\ states.file_name s2 = Some nameB /\ states.file_size s2 = Some sizeB)
  /\ snd after = [edit_text uid links_message None; answer uid (Some LINKS_GENERATED) false]
  /\ contains links_message (u "🔑 **File Key:** `" ++ kB ++ u "`")
  /\ links.generate_stream_link kB <> links.generate_stream_link kA
  /\ links.generate_download_link kB <> links.generate_download_link kA
  /\ session (fst after) uid = None.
Proof.
  intros Hu HiA HiB HfA HfB HfC Hne Hdiff. cbv zeta.
  set (w1 := fst (handle eA (upload mA) w)).
  destruct (upload_pending eB w1 mB nameB fidB sizeB HiB HfB) as [Hs2 _].
  rewrite (upload_then_no_password eB eC w1 mB nameB fidB sizeB HiB HfB HfC Hne).
  cbn [fst snd].
  split; [eexists; split; [exact Hs2 | by repeat split]|].
  split; [reflexivity|].
  split.
  { unfold links.format_links_message. do 5 apply contains_app_l. apply contains_3. }
  split; [|split].
  - intros E%generate_stream_link_inj. by apply Hdiff.
  - intros E%generate_download_link_inj. by apply Hdiff.
  - apply session_cleared.
Qed.

Lemma strip_secret : strip (u "secret") = u "secret".
Proof. vm_compute. reflexivity. Qed.

Lemma truthy_Some (k : str) : k <> [] -> truthy (Some k) = true.
Proof. by destruct k. Qed.

(** C2. Upload, set-password button, an empty text, then the text
    secret, all by one user and with the platform working: the empty text
    is answered with the cannot-be-empty notice and changes nothing at all
    (the session still awaits the password); in the end the record of the
    uploaded file is the uploaded one with [has_password = True] and
    [password = "secret"], and the session is gone. *)
Theorem C2_set_password_flow e1 e2 e3 e4 w mA m3 m4 name fid size :
  file_info mA = Some (name, fid, size) ->
  from_user m3 = from_user mA ->
  from_user m4 = from_user mA ->
  text m3 = Some [] ->
  text m4 = Some (u "secret") ->
  faults e1 = [] -> faults e2 = [] -> faults e3 = [] -> faults e4 = [] ->
  token_urlsafe e1 <> [] ->
  let uid := from_user mA in
  let kA := token_urlsafe e1 in
  let w1 := fst (handle e1 (upload mA) w) in
  let w2 := fst (handle e2 (press (mkCallbackQuery uid pwd_yes)) w1) in
  let w3 := fst (handle e3 (message_in m3) w2) in
  let w4 := fst (handle e4 (message_in m4) w3) in
  (exists s2, session w2 uid = Some s2 /\ states.awaiting_password s2 = true
              /\ states.file_key s2 = Some kA)
  /\ handle e3 (message_in m3) w2 = (w2, [reply_text uid PASSWORD_EMPTY])
  /\ (exists md, record w4 kA = Some md
        /\ storage.has_password md = true
        /\ storage.password md = Some (u "secret")
        /\ md = protected (metadata_of e1 mA name fid size) (u "secret"))
  /\ session w4 uid = None.
Proof.
  intros Hi Hu3 Hu4 Ht3 Ht4 Hf1 Hf2 Hf3 Hf4 Hne. cbv zeta.
  destruct (upload_pending e1 w mA name fid size Hi Hf1) as [Hs1 Hr1].
  set (w1 := fst (handle e1 (upload mA) w)) in *.
  set (s1 := uploaded _ _ _ _ _) in Hs1.
  assert (Ht1 : truthy (states.file_key s1) = true) by (by apply truthy_Some).
  rewrite (press_yes_world e2 w1 (from_user mA) s1 Hs1 Ht1).
  set (s2 := states.with_password_choice (Some yes) (states.with_awaiting_password true s1)).
  set (w2 := mkWorld _ (file_storage w1)).
  assert (Hs2 : session w2 (from_user mA) = Some s2).
  { unfold session, w2. cbn [state_manager states.states]. apply lookup_insert_eq. }
  assert (Hr2 : record w2 (token_urlsafe e1) = Some (metadata_of e1 mA name fid size))
    by exact Hr1.
  assert (Hrej : handle e3 (message_in m3) w2 = (w2, [reply_text (from_user mA) PASSWORD_EMPTY])).
  { rewrite <- Hu3 in Hs2 |- *.
    by apply (text_rejected e3 w2 s2 m3 [] Hs2 eq_refl Ht3 eq_refl). }
  split; [by exists s2|]. split; [exact Hrej|].
  rewrite Hrej. cbn [fst].
  assert (Hacc := text_accepted_ok e4 w2 s2 (token_urlsafe e1)
                    (metadata_of e1 mA name fid size) m4 (u "secret")).
  rewrite Hu4, strip_secret in Hacc.
  rewrite (Hacc Hs2 eq_refl eq_refl Hr2 Ht4 ltac:(by vm_compute) Hf4).
  cbn [fst]. split.
  - exists (protected (metadata_of e1 mA name fid size) (u "secret")).
    split; [|done].
    rewrite (update_password_present _ _ _ _ Hr2).
    unfold record, storage.get_file. cbn [snd file_storage storage.data].
    apply lookup_insert_eq.
  - apply (session_cleared w2 (from_user mA)).
Qed.

(** C10. A text sent while the session awaits a password.  If its
    stripped form is not empty, then whatever the platform does the
    record of the pending file ends up with exactly the stripped text as
    its password, and that text neither begins nor ends with a
    whitespace character.  If the text is whitespace only, nothing
    changes, and the working platform sends the cannot-be-empty
    notice. *)
Theorem C10_stored_password_is_stripped env w s k md m t :
  session w (from_user m) = Some s ->
  states.awaiting_password s = true ->
  states.file_key s = Some k ->
  record w k = Some md ->
  text m = Some t ->
  (strip t <> [] ->
     record (fst (handle env (message_in m) w)) k = Some (protected md (strip t))
     /\ (forall c r, strip t = c :: r -> isspace c = false)
     /\ (forall c, last (strip t) = Some c -> isspace c = false))
  /\ (Forall (fun c => isspace c = true) t ->
      strip t = []
      /\ fst (handle env (message_in m) w) = w
      /\ (faults env = [] ->
          handle env (message_in m) w = (w, [reply_text (from_user m) PASSWORD_EMPTY]))).
Proof.
  intros Hs Ha Hk Hr Ht. split.
  - intros Hne. split; [|split; [apply strip_head | apply strip_last]].
    unfold record. rewrite (text_accepted_storage env w s m t Hs Ha Ht Hne), Hk.
    rewrite (update_password_present _ _ _ _ Hr).
    unfold storage.get_file. cbn [snd storage.data]. apply lookup_insert_eq.
  - intros Hall%strip_nil. split; [done|].
    by apply (text_rejected env w s m t).
Qed.

(** ** The theorems at work on sample inputs *)

Lemma C1_witness :
  exists links_message w',
    handle (sample_env key_A) (press (mkCallbackQuery 7 pwd_no)) world_A =
      (w', [edit_text 7 links_message None; answer 7 (Some LINKS_GENERATED) false])
    /\ contains links_message (u "🔑 **File Key:** `" ++ key_A ++ u "`")
    /\ contains links_message (u "https://stream.example.com/" ++ key_A)
    /\ contains links_message (u "https://download.example.com/" ++ key_A)
    /\ session w' 7 = None
    /\ fst (states.get_state (state_manager w') 7) = states.new_UserState 7
    /\ file_storage w' = file_storage world_A.
Proof.
  apply (C1_no_password_delivers_issued_key (sample_env key_A) world_A 7
           session_A key_A record_A).
  - vm_compute. reflexivity.
  - reflexivity.
  - vm_compute. discriminate.
  - vm_compute. reflexivity.
  - reflexivity.
Defined.

Lemma C2_witness :
  let env := sample_env key_A in
  let m3 := sample_text 7 [] in
  let m4 := sample_text 7 (u "secret") in
  let uid := from_user doc_A in
  let kA := token_urlsafe env in
  let w1 := fst (handle env (upload doc_A) initial) in
  let w2 := fst (handle env (press (mkCallbackQuery uid pwd_yes)) w1) in
  let w3 := fst (handle env (message_in m3) w2) in
  let w4 := fst (handle env (message_in m4) w3) in
  (exists s2, session w2 uid = Some s2 /\ states.awaiting_password s2 = true
              /\ states.file_key s2 = Some kA)
  /\ handle env (message_in m3) w2 = (w2, [reply_text uid PASSWORD_EMPTY])
  /\ (exists md, record w4 kA = Some md
        /\ storage.has_password md = true
        /\ storage.password md = Some (u "secret")
        /\ md = protected (metadata_of env doc_A (u "report.pdf") (u "FILE-ID") 1048576)
                  (u "secret"))
  /\ session w4 uid = None.
Proof.
  apply (C2_set_password_flow (sample_env key_A) (sample_env key_A) (sample_env key_A)
           (sample_env key_A) initial doc_A (sample_text 7 [])
           (sample_text 7 (u "secret")) (u "report.pdf") (u "FILE-ID") 1048576).
  - vm_compute. reflexivity.
  - reflexivity.
  - reflexivity.
  - reflexivity.
  - reflexivity.
  - reflexivity.
  - reflexivity.
  - reflexivity.
  - reflexivity.
  - vm_compute. discriminate.
Defined.

Lemma C3_witness :
  session (fst (handle (sample_env key_B) (upload doc_B) world_A_yes)) (from_user doc_B) =
    Some (states.mkUserState (states.user_id session_A_yes)
            (Some (token_urlsafe (sample_env key_B))) (Some (u "FILE-ID"))
            (Some (u "photo.png")) (Some 1048576)
            (states.awaiting_password session_A_yes)
            (states.password_choice session_A_yes)
            (states.context session_A_yes))
  /\ states.awaiting_password session_A_yes = true
  /\ states.password_choice session_A_yes = Some yes.
Proof.
  split; [|split; reflexivity].
  apply (C3_upload_leaves_flags_as_they_were (sample_env key_B) world_A_yes doc_B
           (u "photo.png") (u "FILE-ID") 1048576 session_A_yes).
  - vm_compute. reflexivity.
  - reflexivity.
  - vm_compute. reflexivity.
Defined.

(** What the stale flag leads to.  User 7 uploads a file, presses the
    set-password button and uploads a second file.  The session then
    holds the second key and still awaits a password, so the next text,
    sent before any button was pressed for the second file, is stored as
    that file's password and the links go out marked as protected. *)
Example second_upload_then_text_sets_password :
  let w3 :=
    fst (run initial
           [(sample_env key_A, upload doc_A);
            (sample_env key_A, press (mkCallbackQuery 7 pwd_yes));
            (sample_env key_B, upload doc_B)]) in
  let after := handle (sample_env key_B) (message_in (sample_text 7 (u "hello"))) w3 in
  session w3 7 =
    Some (states.mkUserState 7 (Some key_B) (Some (u "FILE-ID")) (Some (u "photo.png"))
            (Some 1048576) true (Some yes) [])
  /\ (exists md, record (fst after) key_B = Some md
        /\ storage.has_password md = true
        /\ storage.password md = Some (u "hello"))
  /\ session (fst after) 7 = None
  /\ exists links,
       snd after = [reply_text 7 links]
       /\ find links (u "🔒 **Password Protected:** Yes") = true
       /\ find links key_B = true.
Proof.
  cbv zeta. split; [vm_compute; reflexivity|].
  split; [eexists; split; [vm_compute; reflexivity|]; split; reflexivity|].
  split; [vm_compute; reflexivity|].
  eexists. split; [vm_compute; reflexivity|].
  split; vm_compute; reflexivity.
Qed.

Lemma C4_witness :
  let eA := sample_env key_A in
  let eB := sample_env key_B in
  let uid := from_user doc_B in
  let w2 := fst (handle eB (upload doc_B) (fst (handle eA (upload doc_A) initial))) in
  let after := handle eB (press (mkCallbackQuery uid pwd_no)) w2 in
  (exists s2, session w2 uid = Some s2 /\ states.file_key s2 = Some (token_urlsafe eB))
  /\ links.generate_stream_link (token_urlsafe eB)
       <> links.generate_stream_link (token_urlsafe eA)
  /\ session (fst after) uid = None.
Proof.
  cbv zeta.
  destruct (C4_last_upload_wins (sample_env key_A) (sample_env key_B) (sample_env key_B)
              initial doc_A doc_B
              (u "report.pdf") (u "FILE-ID") 1048576 (u "photo.png") (u "FILE-ID") 1048576)
    as ((s2 & Hs2 & Hk & _) & _ & _ & Hstream & _ & Hclear).
  - reflexivity.
  - vm_compute. reflexivity.
  - vm_compute. reflexivity.
  - reflexivity.
  - reflexivity.
  - reflexivity.
  - vm_compute. discriminate.
  - vm_compute. discriminate.
  - split; [exists s2; split; [exact Hs2 | exact Hk]|].
    split; [exact Hstream | exact Hclear].
Defined.

Lemma C5_witness :
  storage.get_file
    (storage.apply_all storage.empty
       [storage.op_store record_A; storage.op_update_password key_A (u "pw");
        storage.op_delete key_A]) key_B = None.
Proof.
  destruct C5_get_after_put as [_ H]. apply H.
  - reflexivity.
  - vm_compute. intros Hin. 
    apply list_elem_of_In in Hin. destruct Hin as [Hin|[]]. discriminate Hin.
Defined.

Lemma C6_witness :
  storage.update_password storage.empty key_A (u "pw") = (false, storage.empty)
  /\ fst (storage.update_password (file_storage world_A) key_A (u "pw")) = true.
Proof.
  split.
  - apply (C6_update_password storage.empty key_A (u "pw")). reflexivity.
  - apply (C6_update_password (file_storage world_A) key_A (u "pw")) with (md := record_A).
    vm_compute. reflexivity.
Defined.

Lemma C7_witness :
  let env := sample_env key_A in
  let cq := mkCallbackQuery 7 pwd_no in
  let after := exec (_deliver_links env 7 session_A false None (Some cq) None) env
                 world_A_removed in
  fst after = world_A_removed
  /\ states.get_state (state_manager (fst after)) 7 = (session_A, state_manager world_A_removed)
  /\ snd after = [answer (cq_from_user cq) (Some FILE_NOT_FOUND) true].
Proof.
  cbv zeta.
  destruct (C7_delivery_not_found (sample_env key_A) world_A_removed 7 session_A key_A
              false None (Some (mkCallbackQuery 7 pwd_no)) None)
    as (Hw & Hg & Hsent).
  - vm_compute. reflexivity.
  - reflexivity.
  - vm_compute. reflexivity.
  - split; [exact Hw|]. split; [exact Hg|]. apply Hsent. reflexivity.
Defined.

Lemma C8_witness :
  (exists s',
     session (fst (handle (sample_env key_A) (press (mkCallbackQuery 7 pwd_yes)) world_A)) 7
       = Some s'
     /\ states.password_choice s' = Some yes
     /\ states.awaiting_password s' = true
     /\ states.file_key s' = states.file_key session_A)
  /\ (session (fst (handle (sample_env key_A) (press (mkCallbackQuery 7 pwd_no)) world_A)) 7
        = None
      \/ session (fst (handle (sample_env key_A) (press (mkCallbackQuery 7 pwd_no)) world_A)) 7
        = Some session_A).
Proof.
  apply (C8_choice_recorded_for_set_password_only (sample_env key_A) world_A 7 session_A).
  - vm_compute. reflexivity.
  - vm_compute. reflexivity.
Defined.

(** C8 fails as stated: user 7 has a pending file and presses the
    no-password button.  With the record in the store the session is
    removed and a fresh one has no choice recorded; with the record
    missing the session survives, its [password_choice] still absent. *)
Lemma C8_counterexample :
  session world_A 7 = Some session_A
  /\ (let w' := fst (handle (sample_env key_A) (press (mkCallbackQuery 7 pwd_no)) world_A) in
      session w' 7 = None
      /\ states.password_choice (fst (states.get_state (state_manager w') 7)) <> Some (u "no"))
  /\ (let w' := fst (handle (sample_env key_A) (press (mkCallbackQuery 7 pwd_no))
                       world_A_removed) in
      exists s', session w' 7 = Some s' /\ states.password_choice s' <> Some (u "no")).
Proof.
  split; [vm_compute; reflexivity|]. split.
  - cbv zeta. split; [vm_compute; reflexivity|]. vm_compute. discriminate.
  - cbv zeta. eexists. split; [vm_compute; reflexivity|]. vm_compute. discriminate.
Qed.

Lemma C10_witness :
  let m := sample_text 7 (u "  hunter2 ") in
  strip (u "  hunter2 ") = u "hunter2"
  /\ record (fst (handle (sample_env key_A) (message_in m) world_A_yes)) key_A
     = Some (protected record_A (strip (u "  hunter2 "))).
Proof.
  cbv zeta. split; [vm_compute; reflexivity|].
  apply (C10_stored_password_is_stripped (sample_env key_A) world_A_yes session_A_yes
           key_A record_A (sample_text 7 (u "  hunter2 ")) (u "  hunter2 ")).
  - vm_compute. reflexivity.
  - reflexivity.
  - reflexivity.
  - vm_compute. reflexivity.
  - reflexivity.
  - vm_compute. discriminate.
Defined.

(** ** Whole conversations *)

Example run_set_password_flow :
  let out :=
    run initial
      [(sample_env key_A, upload doc_A);
       (sample_env key_A, press (mkCallbackQuery 7 pwd_yes));
       (sample_env key_A, message_in (sample_text 7 []));
       (sample_env key_A, message_in (sample_text 7 (u "secret")))] in
  session (fst out) 7 = None
  /\ record (fst out) key_A = Some (protected record_A (u "secret"))
  /\ snd out =
       [reply_text 7 PROCESSING;
        forward_messages (-1001234) 7 10;
        edit_text 7 (file_received (sample_env key_A) (u "report.pdf") 1048576 key_A)
          (Some keyboards.password_choice_keyboard);
        edit_text 7 ENTER_PASSWORD None;
        answer 7 None false;
        reply_text 7 PASSWORD_EMPTY;
        reply_text 7
          (links_message_of (sample_env key_A) session_A key_A record_A true)].
Proof.
  cbv zeta. split; [vm_compute; reflexivity|].
  split; vm_compute; reflexivity.
Qed.

Example run_last_upload_wins :
  let out :=
    run initial
      [(sample_env key_A, upload doc_A);
       (sample_env key_B, upload doc_B);
       (sample_env key_B, press (mkCallbackQuery 7 pwd_no))] in
  session (fst out) 7 = None
  /\ is_Some (record (fst out) key_A)
  /\ is_Some (record (fst out) key_B)
  /\ exists prompt_A prompt_B links,
       snd out =
         [reply_text 7 PROCESSING; forward_messages (-1001234) 7 10; prompt_A;
          reply_text 7 PROCESSING; forward_messages (-1001234) 7 10; prompt_B;
          edit_text 7 links None; answer 7 (Some LINKS_GENERATED) false]
       /\ find links key_B = true /\ find links key_A = false.
Proof.
  cbv zeta. split; [vm_compute; reflexivity|].
  split; [vm_compute; eexists; reflexivity|].
  split; [vm_compute; eexists; reflexivity|].
  eexists _, _, _. split; [vm_compute; reflexivity|].
  split; vm_compute; reflexivity.
Qed.

Example sample_links_message_shows_key :
  contains (links_message_of (sample_env key_A) session_A key_A record_A false) key_A.
Proof. apply find_contains. vm_compute. reflexivity. Qed.

Import invariants.

(* ===================================================================== *)
(** * Further properties of the store *)
(* ===================================================================== *)

(** X1. [delete_file] on an absent key answers false and returns the very
    same store; on a present key it answers true, the key reads absent
    afterwards, every other key reads as before, and the table on disk
    is the table in memory. *)
Theorem X1_delete_file fs k :
  (storage.get_file fs k = None -> storage.delete_file fs k = (false, fs))
  /\ (is_Some (storage.get_file fs k) ->
      fst (storage.delete_file fs k) = true
      /\ storage.get_file (snd (storage.delete_file fs k)) k = None
      /\ (forall k', k' <> k ->
            storage.get_file (snd (storage.delete_file fs k)) k' = storage.get_file fs k')
      /\ saved (snd (storage.delete_file fs k))).
Proof.
  destruct fs as [dt dk].
  unfold storage.get_file, storage.delete_file, storage._save, saved.
  cbn [storage.data storage.disk]. split.
  - by intros ->.
  - intros [md ->]. cbn [fst snd storage.data storage.disk].
    split; [done|]. split; [apply lookup_delete_eq|]. split; [|done].
    intros k' Hne. by rewrite lookup_delete_ne.
Qed.

Lemma X1_witness :
  storage.delete_file storage.empty key_A = (false, storage.empty)
  /\ storage.get_file (snd (storage.delete_file (file_storage world_A) key_A)) key_A = None.
Proof.
  split.
  - apply (X1_delete_file storage.empty key_A). reflexivity.
  - apply (X1_delete_file (file_storage world_A) key_A).
    vm_compute. eexists. reflexivity.
Defined.

Lemma apply_saved_or_same fs o :
  storage.apply fs o = fs \/ saved (storage.apply fs o).
Proof.
  destruct fs as [dt dk]. unfold saved.
  destruct o as [m|k p|k]; cbn [storage.apply].
  - right. reflexivity.
  - unfold storage.update_password. cbn [storage.data].
    destruct (dt !! k); [right; reflexivity | by left].
  - unfold storage.delete_file. cbn [storage.data].
    destruct (dt !! k); [right; reflexivity | by left].
Qed.

(** X2. Every mutating call of the store either leaves it exactly as it
    was (a failed [update_password] or [delete_file]) or has written the
    whole table to disk before it returns; so a store whose disk copy is
    current keeps it current through any sequence of calls. *)
Theorem X2_changes_are_saved :
  (forall fs o, storage.apply fs o = fs \/ saved (storage.apply fs o))
  /\ (forall fs ops, saved fs -> saved (storage.apply_all fs ops)).
Proof.
  split; [exact apply_saved_or_same|].
  intros fs ops. revert fs. induction ops as [|o ops IH]; intros fs Hs; [done|].
  cbn [storage.apply_all fold_left]. apply IH.
  by destruct (apply_saved_or_same fs o) as [-> | H].
Qed.

Lemma X2_witness :
  saved (storage.apply_all storage.empty
           [storage.op_store record_A; storage.op_update_password key_B (u "pw");
            storage.op_delete key_A]).
Proof.
  destruct X2_changes_are_saved as [_ H]. apply H. reflexivity.
Defined.

(** X3. [store_file] never refuses: it returns the record's key, leaves
    every other key as it was, and replaces whatever was filed under that
    key, a password-protected record included; storing twice is storing
    the later record. *)
Theorem X3_store_file_overwrites fs r :
  fst (storage.store_file fs r) = storage.file_key r
  /\ (forall k', k' <> storage.file_key r ->
        storage.get_file (snd (storage.store_file fs r)) k' = storage.get_file fs k')
  /\ (forall r', storage.file_key r' = storage.file_key r ->
        snd (storage.store_file (snd (storage.store_file fs r')) r)
        = snd (storage.store_file fs r))
  /\ (forall p,
        storage.get_file
          (snd (storage.store_file
                  (snd (storage.update_password fs (storage.file_key r) p)) r))
          (storage.file_key r) = Some r).
Proof.
  destruct fs as [dt dk].
  unfold storage.store_file, storage.get_file, storage._save.
  cbn [fst snd storage.data storage.disk].
  split; [done|]. split; [|split].
  - intros k' Hne. by rewrite lookup_insert_ne.
  - intros r' ->. by rewrite insert_insert_eq.
  - intros p. apply lookup_insert_eq.
Qed.

Lemma X3_witness :
  storage.get_file (snd (storage.store_file (file_storage world_A) record_A)) key_B
  = storage.get_file (file_storage world_A) key_B.
Proof.
  destruct (X3_store_file_overwrites (file_storage world_A) record_A) as (_ & H & _).
  apply (H key_B). vm_compute. discriminate.
Defined.

Lemma apply_keyed fs o : keyed fs -> keyed (storage.apply fs o).
Proof.
  destruct fs as [dt dk]. unfold keyed, storage.get_file. cbn [storage.data].
  intros Hk. destruct o as [m|k p|k]; cbn [storage.apply].
  - unfold storage.store_file, storage._save. cbn [snd storage.data].
    intros k' md. destruct (decide (storage.file_key m = k')) as [<-|Hne].
    + rewrite lookup_insert_eq. by intros [= <-].
    + rewrite lookup_insert_ne by done. apply Hk.
  - unfold storage.update_password, storage._save. cbn [storage.data].
    destruct (dt !! k) as [m|] eqn:Hm; cbn [snd storage.data]; [|exact Hk].
    intros k' md. destruct (decide (k = k')) as [<-|Hne].
    + rewrite lookup_insert_eq. intros [= <-]. cbn. by apply Hk.
    + rewrite lookup_insert_ne by done. apply Hk.
  - unfold storage.delete_file, storage._save. cbn [storage.data].
    destruct (dt !! k) as [m|] eqn:Hm; cbn [snd storage.data]; [|exact Hk].
    intros k' md. destruct (decide (k = k')) as [<-|Hne].
    + by rewrite lookup_delete_eq.
    + rewrite lookup_delete_ne by done. apply Hk.
Qed.

(** X4. Records stay filed under their own key: if every record of a
    store sits under its [file_key], so it is after any sequence of
    [store_file], [update_password] and [delete_file] calls; from the
    empty store this always holds. *)
Theorem X4_records_keyed_by_own_key :
  (forall fs ops, keyed fs -> keyed (storage.apply_all fs ops))
  /\ (forall ops, keyed (storage.apply_all storage.empty ops)).
Proof.
  assert (H : forall fs ops, keyed fs -> keyed (storage.apply_all fs ops)).
  { intros fs ops. revert fs. induction ops as [|o ops IH]; intros fs Hk; [done|].
    cbn [storage.apply_all fold_left]. by apply IH, apply_keyed. }
  split; [exact H|]. intros ops. apply H. intros k md. by unfold storage.get_file.
Qed.

Lemma X4_witness :
  keyed (storage.apply_all (file_storage world_A)
           [storage.op_update_password key_A (u "pw"); storage.op_delete key_B]).
Proof.
  destruct X4_records_keyed_by_own_key as [H _]. apply H.
  intros k md. unfold storage.get_file.
  change (storage.data (file_storage world_A))
    with (storage.data (snd (storage.store_file storage.empty record_A))).
  unfold storage.store_file, storage._save. cbn [snd storage.data storage.empty].
  destruct (decide (storage.file_key record_A = k)) as [<-|Hne].
  - rewrite lookup_insert_eq. by intros [= <-].
  - by rewrite lookup_insert_ne.
Defined.

(** X5. [update_password] composes by last-wins: setting a password and
    then another answers and leaves the store exactly as setting the
    second alone (so setting the same password twice changes nothing
    more). *)
Theorem X5_update_password_last_wins fs k p1 p2 :
  storage.update_password (snd (storage.update_password fs k p1)) k p2
  = storage.update_password fs k p2.
Proof.
  destruct fs as [dt dk].
  unfold storage.update_password, storage._save. cbn [storage.data].
  destruct (dt !! k) as [md|] eqn:Hk; cbn [snd storage.data].
  - rewrite lookup_insert_eq. by rewrite !insert_insert_eq.
  - by rewrite Hk.
Qed.

(* ===================================================================== *)
(** * Further properties of the session table *)
(* ===================================================================== *)

(** X6. [get_state] is get-or-create: for a user without a session it
    returns the all-default state and files it; for any user, asking
    again returns the same state and changes nothing; other users'
    sessions are never touched. *)
Theorem X6_get_state_get_or_create sm uid :
  (states.states sm !! uid = None ->
     fst (states.get_state sm uid) = states.new_UserState uid)
  /\ states.states (snd (states.get_state sm uid)) !! uid
     = Some (fst (states.get_state sm uid))
  /\ states.get_state (snd (states.get_state sm uid)) uid
     = (fst (states.get_state sm uid), snd (states.get_state sm uid))
  /\ (forall v, v <> uid ->
        states.states (snd (states.get_state sm uid)) !! v = states.states sm !! v).
Proof.
  destruct sm as [m]. unfold states.get_state. cbn [states.states].
  destruct (m !! uid) as [s|] eqn:Hs; cbn [fst snd states.states].
  - rewrite Hs. by repeat split.
  - rewrite lookup_insert_eq. repeat split; try done.
    intros v Hne. by rewrite lookup_insert_ne.
Qed.

Lemma X6_witness :
  fst (states.get_state states.empty 7) = states.new_UserState 7.
Proof.
  apply (proj1 (X6_get_state_get_or_create states.empty 7)). reflexivity.
Defined.

(** X7. [clear_state] removes the session and nothing else: the cleared
    user reads back as a fresh all-default state, other users' sessions
    are as before, and clearing a user who has no session returns the
    very same table. *)
Theorem X7_clear_state sm uid :
  states.states (states.clear_state sm uid) !! uid = None
  /\ fst (states.get_state (states.clear_state sm uid) uid) = states.new_UserState uid
  /\ (forall v, v <> uid ->
        states.states (states.clear_state sm uid) !! v = states.states sm !! v)
  /\ (states.states sm !! uid = None -> states.clear_state sm uid = sm).
Proof.
  destruct sm as [m]. unfold states.clear_state, states.get_state. cbn [states.states].
  destruct (m !! uid) as [s|] eqn:Hs; cbn [states.states].
  - rewrite lookup_delete_eq. repeat split; try done.
    intros v Hne. by rewrite lookup_delete_ne.
  - rewrite Hs. by repeat split.
Qed.

Lemma X7_witness :
  states.states (states.clear_state (state_manager world_A) 7) !! 8
  = states.states (state_manager world_A) !! 8.
Proof.
  destruct (X7_clear_state (state_manager world_A) 7) as (_ & _ & H & _).
  apply (H 8). discriminate.
Defined.

(* ===================================================================== *)
(** * Further properties of the links *)
(* ===================================================================== *)

(** X8. A link determines its key: two keys with the same stream link, or
    the same download link, are the same key; and no stream link is ever
    a download link. *)
Theorem X8_links_identify_keys :
  (forall a b, links.generate_stream_link a = links.generate_stream_link b -> a = b)
  /\ (forall a b, links.generate_download_link a = links.generate_download_link b -> a = b)
  /\ (forall a b, links.generate_stream_link a <> links.generate_download_link b).
Proof.
  split; [exact generate_stream_link_inj|].
  split; [exact generate_download_link_inj|].
  intros a b. rewrite generate_stream_link_eq, generate_download_link_eq.
  intros H. vm_compute in H. discriminate H.
Qed.

Lemma X8_witness :
  links.generate_stream_link key_A <> links.generate_stream_link key_B.
Proof.
  intros H. apply (proj1 X8_links_identify_keys) in H.
  vm_compute in H. discriminate H.
Defined.

(* ===================================================================== *)
(** * Handlers under every behaviour of the platform *)
(* ===================================================================== *)

Lemma start_world env m w :
  fst (handle env (start m) w) = touch w (from_user m).
Proof.
  destruct env as [fl tk now sid me ch mb]. destruct w as [[sm] [dt dk]].
  unfold touch. unfold_bot. destruct (sm !! _); unfold_bot; case_script; reflexivity.
Qed.

Lemma start_sent env m w :
  faults env = [] -> snd (handle env (start m) w) = [reply_text (from_user m) WELCOME].
Proof.
  destruct env as [fl tk now sid me ch mb]. intros Hf. unfold_bot in Hf. subst fl.
  destruct w as [[sm] [dt dk]].
  unfold_bot. destruct (sm !! _); unfold_bot; reflexivity.
Qed.

Lemma unmatched_world env m w :
  fst (handle env (unmatched m) w) = touch w (from_user m).
Proof.
  destruct env as [fl tk now sid me ch mb]. destruct w as [[sm] [dt dk]].
  unfold touch. unfold_bot.
  destruct (sm !! _) as [s|]; unfold_bot;
    [destruct (states.awaiting_password s)
    |cbv beta iota delta [states.awaiting_password states.new_UserState]];
    unfold_bot; case_script; reflexivity.
Qed.

Lemma upload_none env m w :
  file_info m = None -> handle env (upload m) w = (w, []).
Proof.
  intros Hi. destruct env as [fl tk now sid me ch mb]. destruct w as [[sm] [dt dk]].
  unfold handle, handler, file_upload_handler. rewrite Hi. reflexivity.
Qed.

Lemma upload_world env w m name fid size :
  file_info m = Some (name, fid, size) ->
  fst (handle env (upload m) w) =
    if all_ok 2 (faults env) then
      mkWorld
        (states.set_file_info (state_manager w) (from_user m) (token_urlsafe env) fid name size)
        (snd (storage.store_file (file_storage w) (metadata_of env m name fid size)))
    else w.
Proof.
  intros Hi. destruct env as [fl tk now sid me ch mb]. destruct w as [[sm] [dt dk]].
  unfold handle, handler, file_upload_handler. rewrite Hi.
  unfold metadata_of, all_ok. unfold_bot.
  destruct fl as [|[[]|] [|[[]|] fl]]; unfold_bot; cbn [take forallb andb];
    case_script; reflexivity.
Qed.

Lemma press_stale_world env cq w :
  truthy (states.file_key (fst (states.get_state (state_manager w) (cq_from_user cq)))) = false ->
  fst (handle env (press cq) w) = touch w (cq_from_user cq).
Proof.
  destruct env as [fl tk now sid me ch mb]. destruct w as [[sm] [dt dk]].
  destruct cq as [uid dat]. unfold touch. unfold_bot.
  destruct (sm !! uid) as [s|]; unfold_bot; intros Ht; rewrite ?Ht;
    unfold_bot; case_script; reflexivity.
Qed.

Lemma press_stale_sent env cq w :
  truthy (states.file_key (fst (states.get_state (state_manager w) (cq_from_user cq)))) = false ->
  faults env = [] ->
  snd (handle env (press cq) w) = [answer (cq_from_user cq) (Some NO_FILE_IN_PROGRESS) true].
Proof.
  destruct env as [fl tk now sid me ch mb]. destruct w as [[sm] [dt dk]].
  destruct cq as [uid dat]. unfold_bot.
  destruct (sm !! uid) as [s|]; unfold_bot; intros Ht Hf; subst fl; rewrite ?Ht;
    unfold_bot; reflexivity.
Qed.

Lemma press_other env w uid dat s :
  session w uid = Some s ->
  truthy (states.file_key s) = true ->
  dat <> pwd_no -> dat <> pwd_yes ->
  handle env (press (mkCallbackQuery uid dat)) w = (w, []).
Proof.
  intros Hs Ht Hn Hy. destruct env as [fl tk now sid me ch mb].
  destruct w as [[sm] [dt dk]]. unfold_bot in Hs.
  step_bot. rewrite Hs, Ht. cbv beta iota.
  destruct (decide (dat = pwd_no)); [done|]. destruct (decide (dat = pwd_yes)); [done|].
  reflexivity.
Qed.

Lemma text_ignored env m w :
  states.awaiting_password (fst (states.get_state (state_manager w) (from_user m))) = false ->
  handle env (message_in m) w = (touch w (from_user m), []).
Proof.
  destruct env as [fl tk now sid me ch mb]. destruct w as [[sm] [dt dk]].
  destruct m as [fu mid tx dc vd au]. unfold touch. unfold_bot.
  destruct (sm !! fu) as [s|]; unfold_bot; intros Ha; rewrite ?Ha; reflexivity.
Qed.

Lemma text_missing env m w s :
  session w (from_user m) = Some s ->
  states.awaiting_password s = true ->
  text m = None ->
  password_input_handler env m (mkCtx w [] (faults env))
  = (Raise Exception, mkCtx w [] (faults env)).
Proof.
  intros Hs Ha Ht. destruct env as [fl tk now sid me ch mb].
  destruct w as [[sm] [dt dk]]. destruct m as [fu mid tx dc vd au].
  unfold_bot in Hs. unfold_bot in Ht. subst tx.
  unfold_bot. rewrite Hs, Ha. reflexivity.
Qed.

Lemma deliver_found_world env w uid s k md hp pw cq m sc :
  states.file_key s = Some k ->
  record w k = Some md ->
  (is_Some cq \/ is_Some m) ->
  world (snd (_deliver_links env uid s hp pw cq m (mkCtx w [] sc))) =
    if all_ok (delivery_calls cq) sc then cleared w uid else w.
Proof.
  destruct w as [[sm] [dt dk]]. intros Hk Hr Hch. unfold_bot in Hr.
  unfold _deliver_links, cleared, all_ok, delivery_calls. rewrite Hk.
  change (str_of_opt (Some k)) with k.
  rewrite generate_stream_link_eq, generate_download_link_eq.
  unfold_bot. rewrite Hr.
  destruct cq as [cq|], m as [m|];
    try (destruct Hch as [[? [=]]|[? [=]]]; fail);
    destruct sc as [|[[]|] [|[[]|] [|[[]|] sc]]]; unfold_bot;
    rewrite ?generate_tg_link_eq; unfold_bot; cbn [take forallb andb];
    case_script; reflexivity.
Qed.

Lemma text_accepted_world env w s m t :
  session w (from_user m) = Some s ->
  states.awaiting_password s = true ->
  text m = Some t ->
  strip t <> [] ->
  let w1 := mkWorld (state_manager w) (with_password_for (file_storage w) s (strip t)) in
  fst (handle env (message_in m) w) = w1
  \/ fst (handle env (message_in m) w) = cleared w1 (from_user m).
Proof.
  intros Hs Ha Ht He%strip_accepted. cbv zeta. unfold cleared, with_password_for.
  destruct env as [fl tk now sid me ch mb].
  set (env := mkEnv fl tk now sid me ch mb).
  set (fs' := match states.file_key s with
              | Some k => snd (storage.update_password (file_storage w) k (strip t))
              | None => file_storage w
              end).
  pose proof (deliver_world env (mkWorld (state_manager w) fs') (from_user m) s true
                (Some (strip t)) None (Some m) [] fl) as Hd.
  subst env fs'.
  destruct w as [[sm] [dt dk]]. unfold_bot in Hs.
  destruct m as [fu mid tx dc vd au]. step_bot in Hs. step_bot in Ht. subst tx.
  step_bot. rewrite !Hs, Ha. step_bot. step_bot in He. rewrite He.
  step_bot in Hd. rewrite Hs in Hd.
  destruct (states.file_key s) as [k|].
  - destruct (dt !! k) as [md|]; step_bot; step_bot in Hd;
      destruct (_deliver_links _ _ _ _ _ _ _ _) as [[[]|ex] [w' snt sc]];
      step_bot; step_bot in Hd; case_script;
      (destruct Hd as [-> | ->]; [left | right]; reflexivity).
  - step_bot; step_bot in Hd;
      destruct (_deliver_links _ _ _ _ _ _ _ _) as [[[]|ex] [w' snt sc]];
      step_bot; step_bot in Hd; case_script;
      (destruct Hd as [-> | ->]; [left | right]; reflexivity).
Qed.

Lemma cleared_present w uid s :
  session w uid = Some s ->
  mkWorld (states.mkStateManager (delete uid (states.states (state_manager w))))
    (file_storage w) = cleared w uid.
Proof.
  unfold session, cleared, states.clear_state. by intros ->.
Qed.

Lemma touch_present w uid s : session w uid = Some s -> touch w uid = w.
Proof.
  destruct w as [[sm] fs]. unfold session, touch, states.get_state.
  cbn [state_manager states.states file_storage]. by intros ->.
Qed.

Lemma truthy_session w uid :
  truthy (states.file_key (fst (states.get_state (state_manager w) uid))) = true ->
  exists s, session w uid = Some s /\ truthy (states.file_key s) = true.
Proof.
  unfold session, states.get_state.
  destruct (states.states (state_manager w) !! uid) as [s|]; cbn [fst]; [eauto|done].
Qed.

Lemma awaiting_session w uid :
  states.awaiting_password (fst (states.get_state (state_manager w) uid)) = true ->
  exists s, session w uid = Some s /\ states.awaiting_password s = true.
Proof.
  unfold session, states.get_state.
  destruct (states.states (state_manager w) !! uid) as [s|]; cbn [fst]; [eauto|done].
Qed.

Lemma handle_outcome env ev w : outcome env w ev (fst (handle env ev w)).
Proof.
  destruct ev as [m|m|cq|m|m].
  - rewrite start_world. apply (session_created env w (start m)).
  - destruct (file_info m) as [[[name fid] size]|] eqn:Hi.
    + rewrite (upload_world env w m name fid size Hi).
      destruct (all_ok 2 (faults env)); [by apply file_registered | apply nothing].
    + rewrite (upload_none env m w Hi). apply nothing.
  - destruct (truthy (states.file_key
                        (fst (states.get_state (state_manager w) (cq_from_user cq)))))
      eqn:Ht.
    + apply truthy_session in Ht as (s & Hs & Ht). destruct cq as [uid dat].
      cbn [cq_from_user] in Hs.
      destruct (decide (dat = pwd_no)) as [->|Hn];
        [|destruct (decide (dat = pwd_yes)) as [->|Hy]].
      * destruct (press_no_world env w uid s Hs Ht) as [-> | ->].
        -- apply nothing.
        -- rewrite (cleared_present w uid s Hs).
           by apply (delivered_without_password env w (mkCallbackQuery uid pwd_no) s).
      * rewrite (press_yes_world env w uid s Hs Ht).
        by apply (password_requested env w (mkCallbackQuery uid pwd_yes) s).
      * rewrite (press_other env w uid dat s Hs Ht Hn Hy). apply nothing.
    + rewrite (press_stale_world env cq w Ht). apply (session_created env w (press cq)).
  - destruct (states.awaiting_password
                (fst (states.get_state (state_manager w) (from_user m)))) eqn:Ha.
    + apply awaiting_session in Ha as (s & Hs & Ha).
      destruct (text m) as [t|] eqn:Ht.
      * destruct (decide (strip t = [])) as [He|He].
        -- destruct (text_rejected env w s m t Hs Ha Ht He) as [-> _]. apply nothing.
        -- destruct (text_accepted_world env w s m t Hs Ha Ht He) as [-> | ->].
           ++ by apply password_stored.
           ++ by apply delivered_with_password.
      * unfold handle, exec, handler.
        rewrite (text_missing env m w s Hs Ha Ht). apply nothing.
    + rewrite (text_ignored env m w Ha). apply (session_created env w (message_in m)).
  - rewrite unmatched_world. apply (session_created env w (unmatched m)).
Qed.

(** ** What every outcome respects *)

Lemma get_state_other sm uid v :
  v <> uid -> states.states (snd (states.get_state sm uid)) !! v = states.states sm !! v.
Proof.
  intros Hne. destruct sm as [m]. unfold states.get_state. cbn [states.states].
  destruct (m !! uid); cbn [snd states.states]; [done|]. by rewrite lookup_insert_ne.
Qed.

Lemma clear_state_other sm uid v :
  v <> uid -> states.states (states.clear_state sm uid) !! v = states.states sm !! v.
Proof.
  intros Hne. destruct sm as [m]. unfold states.clear_state. cbn [states.states].
  destruct (m !! uid); cbn [states.states]; [|done]. by rewrite lookup_delete_ne.
Qed.

Lemma assign_other sm uid f v :
  v <> uid -> states.states (states.assign sm uid f) !! v = states.states sm !! v.
Proof.
  intros Hne. destruct sm as [m]. unfold states.assign, states.get_state.
  cbn [states.states]. destruct (m !! uid); cbn [states.states];
    rewrite !lookup_insert_ne by done; done.
Qed.

Lemma outcome_other_sessions env w ev w' v :
  outcome env w ev w' -> v <> user_of ev -> session w' v = session w v.
Proof.
  intros Ho Hne. destruct Ho; unfold session, touch, cleared; cbn [state_manager user_of] in *.
  - done.
  - by apply get_state_other.
  - by apply assign_other.
  - cbn [states.states]. by rewrite lookup_insert_ne.
  - by apply clear_state_other.
  - done.
  - by apply clear_state_other.
Qed.

Lemma update_password_keeps fs k p k' :
  is_Some (storage.get_file fs k') <->
  is_Some (storage.get_file (snd (storage.update_password fs k p)) k').
Proof.
  destruct fs as [dt dk]. unfold storage.get_file, storage.update_password, storage._save.
  cbn [storage.data]. destruct (dt !! k) as [md|] eqn:Hk; cbn [snd storage.data]; [|done].
  destruct (decide (k = k')) as [<-|Hne].
  - rewrite lookup_insert_eq, Hk. split; eauto.
  - by rewrite lookup_insert_ne.
Qed.

Lemma with_password_for_keeps fs s p k' :
  is_Some (storage.get_file fs k') <->
  is_Some (storage.get_file (with_password_for fs s p) k').
Proof.
  unfold with_password_for. destruct (states.file_key s); [|done].
  apply update_password_keeps.
Qed.

Lemma store_file_keeps fs md k' :
  is_Some (storage.get_file fs k') ->
  is_Some (storage.get_file (snd (storage.store_file fs md)) k').
Proof.
  destruct fs as [dt dk]. unfold storage.get_file, storage.store_file, storage._save.
  cbn [snd storage.data]. intros H.
  destruct (decide (storage.file_key md = k')) as [<-|Hne].
  - rewrite lookup_insert_eq. eauto.
  - by rewrite lookup_insert_ne.
Qed.

Lemma outcome_keeps_records env w ev w' k :
  outcome env w ev w' -> is_Some (record w k) -> is_Some (record w' k).
Proof.
  intros Ho. destruct Ho; unfold record, touch, cleared; cbn [file_storage]; try done.
  - apply store_file_keeps.
  - apply with_password_for_keeps.
  - apply with_password_for_keeps.
Qed.

(** Fields of a record that no handler but the upload writes. *)
Lemma update_password_fields fs k p k' md :
  storage.get_file fs k' = Some md ->
  exists md', storage.get_file (snd (storage.update_password fs k p)) k' = Some md'
    /\ storage.file_key md' = storage.file_key md
    /\ storage.file_id md' = storage.file_id md
    /\ storage.file_name md' = storage.file_name md
    /\ storage.file_size md' = storage.file_size md
    /\ storage.user_id md' = storage.user_id md
    /\ storage.message_id_in_storage md' = storage.message_id_in_storage md
    /\ storage.created_at md' = storage.created_at md
    /\ (storage.has_password md = true -> storage.has_password md' = true).
Proof.
  destruct fs as [dt dk]. unfold storage.get_file, storage.update_password, storage._save.
  cbn [storage.data]. intros Hmd.
  destruct (dt !! k) as [m0|] eqn:Hk; cbn [snd storage.data].
  - destruct (decide (k = k')) as [<-|Hne].
    + rewrite lookup_insert_eq. rewrite Hk in Hmd. injection Hmd as <-.
      eexists. split; [reflexivity|]. by repeat split.
    + rewrite lookup_insert_ne by done. exists md. by repeat split.
  - exists md. by repeat split.
Qed.

Lemma outcome_record_fields env w ev w' k md :
  outcome env w ev w' ->
  (forall m, ev <> upload m) ->
  record w k = Some md ->
  exists md', record w' k = Some md'
    /\ storage.file_key md' = storage.file_key md
    /\ storage.file_id md' = storage.file_id md
    /\ storage.file_name md' = storage.file_name md
    /\ storage.file_size md' = storage.file_size md
    /\ storage.user_id md' = storage.user_id md
    /\ storage.message_id_in_storage md' = storage.message_id_in_storage md
    /\ storage.created_at md' = storage.created_at md
    /\ (storage.has_password md = true -> storage.has_password md' = true).
Proof.
  intros Ho Hnu Hr.
  assert (Hsame : exists md', record w k = Some md'
    /\ storage.file_key md' = storage.file_key md
    /\ storage.file_id md' = storage.file_id md
    /\ storage.file_name md' = storage.file_name md
    /\ storage.file_size md' = storage.file_size md
    /\ storage.user_id md' = storage.user_id md
    /\ storage.message_id_in_storage md' = storage.message_id_in_storage md
    /\ storage.created_at md' = storage.created_at md
    /\ (storage.has_password md = true -> storage.has_password md' = true))
    by (exists md; by repeat split).
  destruct Ho; unfold record, touch, cleared, with_password_for in *;
    cbn [file_storage] in *; try exact Hsame.
  - by destruct (Hnu m).
  - destruct (states.file_key s); [by apply update_password_fields | exact Hsame].
  - destruct (states.file_key s); [by apply update_password_fields | exact Hsame].
Qed.

Lemma outcome_same_keys env w ev w' k :
  outcome env w ev w' ->
  (forall m, ev <> upload m) ->
  (is_Some (record w' k) <-> is_Some (record w k)).
Proof.
  intros Ho Hnu. destruct Ho; unfold record, touch, cleared; cbn [file_storage]; try done.
  - by destruct (Hnu m).
  - symmetry. apply with_password_for_keeps.
  - symmetry. apply with_password_for_keeps.
Qed.

Lemma get_state_lookup sm uid :
  states.states (snd (states.get_state sm uid)) !! uid = Some (fst (states.get_state sm uid)).
Proof.
  destruct sm as [m]. unfold states.get_state. cbn [states.states].
  destruct (m !! uid) as [s|] eqn:Hs; cbn [fst snd states.states]; [done|].
  apply lookup_insert_eq.
Qed.

(** ** The invariant of the two singletons *)

Lemma lstrip_id (s : str) :
  (forall c r, s = c :: r -> isspace c = false) -> lstrip s = s.
Proof.
  destruct s as [|c r]; [done|]. intros H. cbn [lstrip]. by rewrite (H c r).
Qed.

Lemma strip_idem (t : str) : strip (strip t) = strip t.
Proof.
  assert (Hl : lstrip (strip t) = strip t).
  { apply lstrip_id. intros c r. apply strip_head. }
  unfold strip at 1. rewrite Hl. unfold rstrip.
  rewrite lstrip_id; [apply rev_involutive|].
  intros c r Hrev. apply (strip_last t). apply last_Some. exists (rev r).
  rewrite <- (rev_involutive (strip t)), Hrev. reflexivity.
Qed.

Lemma password_ok_strip (t : str) : strip t <> [] -> password_ok (strip t).
Proof. intros H. split; [done | apply strip_idem]. Qed.

Lemma record_ok_protected k md p :
  record_ok k md -> password_ok p -> record_ok k (protected md p).
Proof.
  intros (Hk & _ & _) Hp. unfold record_ok, protected.
  cbn [storage.file_key storage.has_password storage.password].
  split; [done|]. split; [split; eauto|]. by intros p' [= <-].
Qed.

Lemma records_ok_update fs k p :
  (forall k' md, storage.get_file fs k' = Some md -> record_ok k' md) ->
  password_ok p ->
  forall k' md, storage.get_file (snd (storage.update_password fs k p)) k' = Some md ->
                record_ok k' md.
Proof.
  intros Hall Hp k' md.
  destruct (storage.get_file fs k) as [m0|] eqn:Hk.
  - rewrite (update_password_present _ _ _ _ Hk). unfold storage.get_file.
    cbn [snd storage.data]. destruct (decide (k = k')) as [<-|Hne].
    + rewrite lookup_insert_eq. intros [= <-].
      apply record_ok_protected; [by apply Hall | done].
    + rewrite lookup_insert_ne by done. apply Hall.
  - rewrite (update_password_absent _ _ _ Hk). apply Hall.
Qed.

Lemma records_ok_with_password_for fs s p :
  (forall k' md, storage.get_file fs k' = Some md -> record_ok k' md) ->
  password_ok p ->
  forall k' md, storage.get_file (with_password_for fs s p) k' = Some md -> record_ok k' md.
Proof.
  intros Hall Hp. unfold with_password_for.
  destruct (states.file_key s); [by apply records_ok_update | exact Hall].
Qed.

Lemma records_ok_store env m name fid size fs :
  (forall k' md, storage.get_file fs k' = Some md -> record_ok k' md) ->
  forall k' md,
    storage.get_file (snd (storage.store_file fs (metadata_of env m name fid size))) k'
      = Some md -> record_ok k' md.
Proof.
  intros Hall k' md. destruct fs as [dt dk].
  unfold storage.get_file, storage.store_file, storage._save in *.
  cbn [snd storage.data] in *.
  destruct (decide (storage.file_key (metadata_of env m name fid size) = k')) as [<-|Hne].
  - rewrite lookup_insert_eq. intros [= <-]. unfold record_ok, metadata_of.
    cbn [storage.file_key storage.has_password storage.password].
    split; [done|]. split; [|done]. split; [done | by intros [? [=]]].
  - rewrite lookup_insert_ne by done. apply Hall.
Qed.

(** A session that is fine in [w] is fine in any world that kept the
    records of [w]. *)
Lemma session_ok_mono w w' uid s :
  (forall k, is_Some (record w k) -> is_Some (record w' k)) ->
  session_ok w uid s -> session_ok w' uid s.
Proof.
  intros Hkeep (H1 & H2 & H3 & H4 & H5). unfold session_ok.
  repeat (split; [done|]).
  destruct (states.file_key s) as [k|]; [|done].
  destruct H5 as (Hr & ?). split; [by apply Hkeep | done].
Qed.

Lemma session_ok_new w uid : session_ok w uid (states.new_UserState uid).
Proof.
  unfold session_ok, states.new_UserState.
  cbn [states.user_id states.context states.awaiting_password states.password_choice
       states.file_key].
  repeat split; try done. by left.
Qed.

Lemma session_ok_get_state w uid :
  (forall v s, session w v = Some s -> session_ok w v s) ->
  session_ok w uid (fst (states.get_state (state_manager w) uid)).
Proof.
  intros Hall. unfold states.get_state.
  destruct (states.states (state_manager w) !! uid) as [s|] eqn:Hs; cbn [fst].
  - by apply Hall.
  - apply session_ok_new.
Qed.

Lemma outcome_consistent env w ev w' :
  outcome env w ev w' -> consistent w -> consistent w'.
Proof.
  intros Ho [Hses Hrec].
  pose proof (fun k => outcome_keeps_records env w ev w' k Ho) as Hkeep.
  split.
  - (* sessions *)
    intros v sv Hv.
    destruct Ho as [ev|ev|m name fid size Hi|cq s Hs Ht Hd|cq s Hs Ht Hd
                   |m s t Hs Ha Htx Hne0|m s t Hs Ha Htx Hne0].
    + by apply Hses.
    + unfold session, touch in Hv. cbn [state_manager] in Hv.
      destruct (decide (v = user_of ev)) as [->|Hne].
      * unfold states.get_state in Hv.
        destruct (states.states (state_manager w) !! user_of ev) as [s0|] eqn:Hs0;
          cbn [snd states.states] in Hv.
        -- apply (session_ok_mono w); [done|]. apply Hses.
           unfold session. by rewrite <- Hv.
        -- rewrite lookup_insert_eq in Hv. injection Hv as <-.
           apply session_ok_new.
      * rewrite get_state_other in Hv by done.
        apply (session_ok_mono w); [done|]. by apply Hses.
    + unfold session in Hv. cbn [state_manager] in Hv.
      destruct (decide (v = from_user m)) as [->|Hne].
      * rewrite session_set_file_info in Hv. injection Hv as <-.
        pose proof (session_ok_get_state w (from_user m) Hses) as (H1 & H2 & H3 & H4 & _).
        unfold session_ok, uploaded.
        cbn [states.user_id states.context states.awaiting_password
             states.password_choice states.file_key states.file_id states.file_name
             states.file_size].
        repeat (split; [done|]). split; [|by eauto].
        unfold record. cbn [file_storage].
        exists (metadata_of env m name fid size).
        apply (record_store_file (file_storage w) (metadata_of env m name fid size)).
      * unfold states.set_file_info in Hv. rewrite assign_other in Hv by done.
        apply (session_ok_mono w); [done|]. by apply Hses.
    + unfold session in Hv. cbn [state_manager states.states] in Hv.
      destruct (decide (v = cq_from_user cq)) as [->|Hne].
      * rewrite lookup_insert_eq in Hv. injection Hv as <-.
        pose proof (Hses _ _ Hs) as (H1 & H2 & H3 & H4 & H5).
        unfold session_ok. destruct s as [a b c d e f g h].
        cbn [states.with_password_choice states.with_awaiting_password
             states.user_id states.context states.awaiting_password
             states.password_choice states.file_key states.file_id states.file_name
             states.file_size] in *.
        repeat (split; [done|]). split; [by right|].
        destruct b as [k|]; [exact H5 | done].
      * rewrite lookup_insert_ne in Hv by done. by apply Hses.
    + unfold session, cleared in Hv. cbn [state_manager] in Hv.
      destruct (decide (v = cq_from_user cq)) as [->|Hne].
      * unfold states.clear_state in Hv. unfold session in Hs. rewrite Hs in Hv.
        cbn [states.states] in Hv. by rewrite lookup_delete_eq in Hv.
      * rewrite clear_state_other in Hv by done. by apply Hses.
    + apply (session_ok_mono w); [done|]. by apply Hses.
    + unfold session, cleared in Hv. cbn [state_manager] in Hv.
      destruct (decide (v = from_user m)) as [->|Hne].
      * unfold states.clear_state in Hv. unfold session in Hs. rewrite Hs in Hv.
        cbn [states.states] in Hv. by rewrite lookup_delete_eq in Hv.
      * rewrite clear_state_other in Hv by done.
        apply (session_ok_mono w); [done|]. by apply Hses.
  - (* records *)
    destruct Ho; unfold record, touch, cleared; cbn [file_storage]; try exact Hrec.
    + by apply records_ok_store.
    + apply records_ok_with_password_for; [exact Hrec | by apply password_ok_strip].
    + apply records_ok_with_password_for; [exact Hrec | by apply password_ok_strip].
Qed.

Lemma consistent_initial : consistent initial.
Proof. split; intros ? ? H; by vm_compute in H. Qed.

Lemma run_consistent evs : forall w, consistent w -> consistent (fst (run w evs)).
Proof.
  induction evs as [|[env ev] evs IH]; intros w Hw; [done|].
  cbn [run]. pose proof (handle_outcome env ev w) as Ho.
  destruct (handle env ev w) as [w1 out1]. cbn [fst] in Ho.
  specialize (IH w1 (outcome_consistent env w ev w1 Ho Hw)).
  destruct (run w1 evs) as [w2 out2]. exact IH.
Qed.

(* ===================================================================== *)
(** * Further properties of the handlers *)
(* ===================================================================== *)

(** X9. An upload is all or nothing.  A message without document, video
    or audio does nothing at all.  Otherwise the record is stored and the
    session fields are set, both together, exactly when the processing
    reply and the forward to the archive both succeeded; a failure of
    either leaves store and sessions untouched, and a failure of the
    final prompt undoes nothing. *)
Theorem X9_upload_all_or_nothing env w m :
  match file_info m with
  | None => handle env (upload m) w = (w, [])
  | Some (name, fid, size) =>
      fst (handle env (upload m) w) =
        if all_ok 2 (faults env) then
          mkWorld
            (states.set_file_info (state_manager w) (from_user m)
               (token_urlsafe env) fid name size)
            (snd (storage.store_file (file_storage w) (metadata_of env m name fid size)))
        else w
  end.
Proof.
  destruct (file_info m) as [[[name fid] size]|] eqn:Hi.
  - by apply upload_world.
  - by apply upload_none.
Qed.

(** X10. A failed upload is reported and changes nothing.  When the
    processing reply or the forward to the archive raises, the user gets
    the error-processing notice for an [RpcError] and the
    unexpected-error notice for any other exception, and store and
    sessions are as before. *)
Theorem X10_upload_failure_reported env w m name fid size e :
  file_info m = Some (name, fid, size) ->
  (faults env = [Some e] ->
     handle env (upload m) w = (w, [reply_text (from_user m) (upload_error e)]))
  /\ (faults env = [None; Some e] ->
      handle env (upload m) w =
        (w, [reply_text (from_user m) PROCESSING;
             reply_text (from_user m) (upload_error e)])).
Proof.
  intros Hi. destruct env as [fl tk now sid me ch mb]. destruct w as [[sm] [dt dk]].
  unfold handle, handler, file_upload_handler. rewrite Hi.
  split; intros Hf; unfold_bot in Hf; subst fl; destruct e; unfold upload_error;
    unfold_bot; reflexivity.
Qed.

Lemma X10_witness :
  handle (faulty_env key_A [None; Some RpcError]) (upload doc_A) initial =
    (initial, [reply_text (from_user doc_A) PROCESSING;
               reply_text (from_user doc_A) (upload_error RpcError)]).
Proof.
  apply (X10_upload_failure_reported (faulty_env key_A [None; Some RpcError]) initial doc_A
           (u "report.pdf") (u "FILE-ID") 1048576 RpcError).
  - vm_compute. reflexivity.
  - reflexivity.
Defined.

(** X11. A button pressed with no file pending (no session, or a session
    without a key) is refused: whatever the platform does, the store is
    untouched and the only change to the sessions is that the user's
    empty session now exists; when the platform works the user gets the
    no-file-in-progress alert and nothing else. *)
Theorem X11_stale_button_refused env cq w :
  truthy (states.file_key
            (fst (states.get_state (state_manager w) (cq_from_user cq)))) = false ->
  fst (handle env (press cq) w) = touch w (cq_from_user cq)
  /\ file_storage (fst (handle env (press cq) w)) = file_storage w
  /\ session (fst (handle env (press cq) w)) (cq_from_user cq)
     = Some (fst (states.get_state (state_manager w) (cq_from_user cq)))
  /\ (faults env = [] ->
      snd (handle env (press cq) w)
      = [answer (cq_from_user cq) (Some NO_FILE_IN_PROGRESS) true]).
Proof.
  intros Ht. rewrite (press_stale_world env cq w Ht).
  split; [done|]. split; [done|]. split.
  - unfold session, touch. cbn [state_manager].
    apply get_state_lookup.
  - by apply press_stale_sent.
Qed.

Lemma X11_witness :
  snd (handle (sample_env key_A) (press (mkCallbackQuery 9 pwd_no)) world_A)
  = [answer (cq_from_user (mkCallbackQuery 9 pwd_no)) (Some NO_FILE_IN_PROGRESS) true].
Proof.
  destruct (X11_stale_button_refused (sample_env key_A) (mkCallbackQuery 9 pwd_no) world_A)
    as (_ & _ & _ & H).
  - vm_compute. reflexivity.
  - apply H. reflexivity.
Defined.

(** X12. Text is taken as a password only while the session awaits one.
    For a user whose session does not await a password, or who has no
    session, [password_input_handler] sends nothing and touches neither
    a record nor a session field, whatever the platform does; the only
    trace is the user's empty session if there was none. *)
Theorem X12_text_ignored_unless_awaiting env m w :
  states.awaiting_password
    (fst (states.get_state (state_manager w) (from_user m))) = false ->
  handle env (message_in m) w = (touch w (from_user m), [])
  /\ (forall s, session w (from_user m) = Some s ->
        handle env (message_in m) w = (w, [])).
Proof.
  intros Ha. rewrite (text_ignored env m w Ha). split; [done|].
  intros s Hs. by rewrite (touch_present w (from_user m) s Hs).
Qed.

Lemma X12_witness :
  handle (sample_env key_A) (message_in (sample_text 7 (u "hello"))) world_A
  = (world_A, []).
Proof.
  destruct (X12_text_ignored_unless_awaiting (sample_env key_A)
              (sample_text 7 (u "hello")) world_A) as [_ H].
  - vm_compute. reflexivity.
  - apply (H session_A). vm_compute. reflexivity.
Defined.

(** X13. The start command never disturbs a conversation: whatever the
    platform does, the store is untouched and a user who already has a
    session keeps it exactly as it is, pending file and awaited password
    included; a new user gets an empty session.  When the platform works
    the welcome text is the one reply. *)
Theorem X13_start_keeps_session env m w :
  fst (handle env (start m) w) = touch w (from_user m)
  /\ (forall s, session w (from_user m) = Some s -> fst (handle env (start m) w) = w)
  /\ (session w (from_user m) = None ->
      session (fst (handle env (start m) w)) (from_user m)
      = Some (states.new_UserState (from_user m)))
  /\ (faults env = [] ->
      snd (handle env (start m) w) = [reply_text (from_user m) WELCOME]).
Proof.
  rewrite start_world. split; [done|]. split; [|split].
  - intros s Hs. by apply (touch_present w (from_user m) s).
  - intros Hn. unfold session, touch in *. cbn [state_manager].
    rewrite get_state_lookup. unfold states.get_state. by rewrite Hn.
  - apply start_sent.
Qed.

Lemma X13_witness :
  fst (handle (sample_env key_A) (start (sample_text 7 (u "/start"))) world_A_yes)
  = world_A_yes.
Proof.
  destruct (X13_start_keeps_session (sample_env key_A) (sample_text 7 (u "/start"))
              world_A_yes) as (_ & H & _).
  apply (H session_A_yes). vm_compute. reflexivity.
Defined.

Lemma unmatched_sent env m w :
  faults env = [] ->
  snd (handle env (unmatched m) w) =
    if states.awaiting_password (fst (states.get_state (state_manager w) (from_user m)))
    then [] else [reply_text (from_user m) PLEASE_SEND_FILE].
Proof.
  destruct env as [fl tk now sid me ch mb]. intros Hf. unfold_bot in Hf. subst fl.
  destruct w as [[sm] [dt dk]]. unfold_bot.
  destruct (sm !! _) as [s|]; unfold_bot;
    [destruct (states.awaiting_password s)
    |cbv beta iota delta [states.awaiting_password states.new_UserState]];
    unfold_bot; reflexivity.
Qed.

(** X14. The catch-all handler only ever prompts: whatever the platform
    does it changes no session field and no record (at most the user's
    empty session is created); when the platform works it asks for a file
    unless the user's session awaits a password, in which case it stays
    silent. *)
Theorem X14_default_handler_prompts env m w :
  fst (handle env (unmatched m) w) = touch w (from_user m)
  /\ (faults env = [] ->
      snd (handle env (unmatched m) w) =
        if states.awaiting_password
             (fst (states.get_state (state_manager w) (from_user m)))
        then [] else [reply_text (from_user m) PLEASE_SEND_FILE]).
Proof. split; [apply unmatched_world | apply unmatched_sent]. Qed.

Lemma X14_witness :
  snd (handle (sample_env key_A) (unmatched (sample_text 7 (u "hi"))) world_A_yes) = [].
Proof.
  destruct (X14_default_handler_prompts (sample_env key_A) (sample_text 7 (u "hi"))
              world_A_yes) as [_ H].
  rewrite H by reflexivity. vm_compute. reflexivity.
Defined.

(** X15. A message without text (a sticker, a photo) sent while the
    session awaits a password makes [password_input_handler] raise before
    it has sent or changed anything: the exception escapes the handler,
    nothing is sent, and store and sessions are as before. *)
Theorem X15_textless_message_raises env m w s :
  session w (from_user m) = Some s ->
  states.awaiting_password s = true ->
  text m = None ->
  password_input_handler env m (mkCtx w [] (faults env))
    = (Raise Exception, mkCtx w [] (faults env))
  /\ handle env (message_in m) w = (w, []).
Proof.
  intros Hs Ha Ht. pose proof (text_missing env m w s Hs Ha Ht) as H.
  split; [exact H|]. unfold handle, exec, handler. by rewrite H.
Qed.

Lemma X15_witness :
  handle (sample_env key_A) (message_in (mkMessage 7 12 None None None None)) world_A_yes
  = (world_A_yes, []).
Proof.
  apply (X15_textless_message_raises (sample_env key_A)
           (mkMessage 7 12 None None None None) world_A_yes session_A_yes).
  - vm_compute. reflexivity.
  - reflexivity.
  - reflexivity.
Defined.

(** X16. Delivery clears the session exactly when every platform call it
    makes succeeded.  For a pending key with a record in the store, the
    session is removed if [get_me] and the sending calls (edit and answer
    on a callback query, reply on a message) all succeed, and is left as
    it was if any of them raises; the store is never written. *)
Theorem X16_session_cleared_iff_delivered env w uid s k md hp pw cq m sc :
  states.file_key s = Some k ->
  record w k = Some md ->
  (is_Some cq \/ is_Some m) ->
  world (snd (_deliver_links env uid s hp pw cq m (mkCtx w [] sc))) =
    if all_ok (delivery_calls cq) sc then cleared w uid else w.
Proof. apply deliver_found_world. Qed.

Lemma X16_witness :
  world (snd (_deliver_links (sample_env key_A) 7 session_A false None
                (Some (mkCallbackQuery 7 pwd_no)) None
                (mkCtx world_A [] [None; None; Some RpcError])))
  = if all_ok (delivery_calls (Some (mkCallbackQuery 7 pwd_no))) [None; None; Some RpcError]
    then cleared world_A 7 else world_A.
Proof.
  apply (X16_session_cleared_iff_delivered (sample_env key_A) world_A 7 session_A key_A
           record_A false None (Some (mkCallbackQuery 7 pwd_no)) None
           [None; None; Some RpcError]).
  - reflexivity.
  - vm_compute. reflexivity.
  - left. eexists. reflexivity.
Defined.

Lemma text_accepted_exact env w s k md m t :
  session w (from_user m) = Some s ->
  states.awaiting_password s = true ->
  states.file_key s = Some k ->
  record w k = Some md ->
  text m = Some t ->
  strip t <> [] ->
  fst (handle env (message_in m) w) =
    if all_ok 2 (faults env)
    then cleared (mkWorld (state_manager w)
                    (snd (storage.update_password (file_storage w) k (strip t))))
           (from_user m)
    else mkWorld (state_manager w)
           (snd (storage.update_password (file_storage w) k (strip t))).
Proof.
  intros Hs Ha Hk Hr Ht He%strip_accepted.
  assert (Hr' : record (mkWorld (state_manager w)
                          (snd (storage.update_password (file_storage w) k (strip t)))) k
                = Some (protected md (strip t))).
  { rewrite (update_password_present _ _ _ _ Hr). unfold record, storage.get_file.
    cbn [snd file_storage storage.data]. apply lookup_insert_eq. }
  pose proof (deliver_found_world env _ (from_user m) s k _ true (Some (strip t)) None
                (Some m) (faults env) Hk Hr' (or_intror (ex_intro _ m eq_refl))) as Hd.
  unfold delivery_calls in Hd.
  destruct env as [fl tk now sid me ch mb].
  destruct w as [[sm] [dt dk]]. unfold_bot in Hs. unfold_bot in Hr.
  destruct m as [fu mid tx dc vd au]. step_bot in Hs. step_bot in Ht. subst tx.
  unfold cleared in *.
  step_bot. rewrite !Hs, Ha. step_bot. step_bot in He. rewrite He, Hk. step_bot.
  rewrite Hr. step_bot. step_bot in Hd. rewrite Hr, Hs in Hd. step_bot in Hd.
  destruct (_deliver_links _ _ _ _ _ _ _ _) as [[[]|ex] [w' snt sc]];
    step_bot; step_bot in Hd; subst w'; case_script; reflexivity.
Qed.

Lemma protected_twice md p1 p2 : protected (protected md p1) p2 = protected md p2.
Proof. reflexivity. Qed.

(** X17. The password is written before the links are sent, and nothing
    takes it back.  When a password text is accepted but the delivery
    then fails, the record is already protected with that password while
    the session still awaits one; the user's next text replaces the
    stored password, and with the platform working it is then delivered
    and the session removed. *)
Theorem X17_password_replaced_after_failed_delivery e1 e2 w s k md m1 m2 t1 t2 :
  session w (from_user m1) = Some s ->
  states.awaiting_password s = true ->
  states.file_key s = Some k ->
  record w k = Some md ->
  from_user m2 = from_user m1 ->
  text m1 = Some t1 -> strip t1 <> [] ->
  text m2 = Some t2 -> strip t2 <> [] ->
  all_ok 2 (faults e1) = false ->
  faults e2 = [] ->
  let w1 := fst (handle e1 (message_in m1) w) in
  let w2 := fst (handle e2 (message_in m2) w1) in
  session w1 (from_user m1) = Some s
  /\ record w1 k = Some (protected md (strip t1))
  /\ record w2 k = Some (protected md (strip t2))
  /\ session w2 (from_user m1) = None.
Proof.
  intros Hs Ha Hk Hr Hu Ht1 He1 Ht2 He2 Hbad Hf2. cbv zeta.
  rewrite (text_accepted_exact e1 w s k md m1 t1 Hs Ha Hk Hr Ht1 He1), Hbad.
  set (w1 := mkWorld (state_manager w) _).
  assert (Hs1 : session w1 (from_user m2) = Some s) by (by rewrite Hu).
  assert (Hr1 : record w1 k = Some (protected md (strip t1))).
  { unfold w1. rewrite (update_password_present _ _ _ _ Hr). unfold record, storage.get_file.
    cbn [snd file_storage storage.data]. apply lookup_insert_eq. }
  split; [exact Hs|]. split; [exact Hr1|].
  rewrite (text_accepted_ok e2 w1 s k _ m2 t2 Hs1 Ha Hk Hr1 Ht2 He2 Hf2). cbn [fst].
  split.
  - rewrite (update_password_present _ _ _ _ Hr1). unfold record, storage.get_file.
    cbn [snd file_storage storage.data]. rewrite lookup_insert_eq.
    by rewrite protected_twice.
  - unfold session. cbn [state_manager states.states]. rewrite Hu.
    apply lookup_delete_eq.
Qed.

Lemma X17_witness :
  let e1 := faulty_env key_A [None; Some RpcError] in
  let m1 := sample_text 7 (u "first") in
  let m2 := sample_text 7 (u "second") in
  let w1 := fst (handle e1 (message_in m1) world_A_yes) in
  let w2 := fst (handle (sample_env key_A) (message_in m2) w1) in
  session w1 (from_user m1) = Some session_A_yes
  /\ record w1 key_A = Some (protected record_A (strip (u "first")))
  /\ record w2 key_A = Some (protected record_A (strip (u "second")))
  /\ session w2 (from_user m1) = None.
Proof.
  apply (X17_password_replaced_after_failed_delivery
           (faulty_env key_A [None; Some RpcError]) (sample_env key_A) world_A_yes
           session_A_yes key_A record_A (sample_text 7 (u "first"))
           (sample_text 7 (u "second")) (u "first") (u "second")).
  - vm_compute. reflexivity.
  - reflexivity.
  - reflexivity.
  - vm_compute. reflexivity.
  - reflexivity.
  - reflexivity.
  - vm_compute. discriminate.
  - reflexivity.
  - vm_compute. discriminate.
  - reflexivity.
  - reflexivity.
Defined.

(* ===================================================================== *)
(** * Properties of whole runs *)
(* ===================================================================== *)

(** X18. Whatever the platform does, one event changes the two
    singletons in one of seven ways and no other: not at all; by creating
    the user's empty session; by registering an uploaded file (record
    stored and session fields set together); by noting that a password
    was requested; by removing the session after a no-password delivery;
    by writing an accepted password to the pending record; or by that
    followed by removing the session. *)
Theorem X18_handlers_follow_the_machine env ev w :
  outcome env w ev (fst (handle env ev w)).
Proof. apply handle_outcome. Qed.

(** X19. Users do not interfere: whatever the event and whatever the
    platform does, the session of every user other than the one the event
    comes from is exactly as before. *)
Theorem X19_other_users_untouched env ev w v :
  v <> user_of ev ->
  session (fst (handle env ev w)) v = session w v.
Proof.
  intros Hne. apply (outcome_other_sessions env w ev); [apply handle_outcome | exact Hne].
Qed.

Lemma X19_witness :
  session (fst (handle (sample_env key_B) (upload (sample_document 8 (u "other.bin")))
                  world_A_yes)) 7
  = session world_A_yes 7.
Proof.
  apply (X19_other_users_untouched (sample_env key_B)
           (upload (sample_document 8 (u "other.bin"))) world_A_yes 7).
  discriminate.
Defined.

(** X20. No handler ever deletes or rewrites a record.  Whatever the
    event and the platform, every key with a record keeps one.  For any
    event but an upload the set of keys is unchanged and every record
    keeps its key, file id, name, size, owner, archive message id and
    creation time, and a protected record stays protected: only the
    password fields can change. *)
Theorem X20_records_are_retained env ev w k :
  (is_Some (record w k) -> is_Some (record (fst (handle env ev w)) k))
  /\ ((forall m, ev <> upload m) ->
      (is_Some (record (fst (handle env ev w)) k) <-> is_Some (record w k))
      /\ (forall md, record w k = Some md ->
            exists md', record (fst (handle env ev w)) k = Some md'
              /\ storage.file_key md' = storage.file_key md
              /\ storage.file_id md' = storage.file_id md
              /\ storage.file_name md' = storage.file_name md
              /\ storage.file_size md' = storage.file_size md
              /\ storage.user_id md' = storage.user_id md
              /\ storage.message_id_in_storage md' = storage.message_id_in_storage md
              /\ storage.created_at md' = storage.created_at md
              /\ (storage.has_password md = true -> storage.has_password md' = true))).
Proof.
  pose proof (handle_outcome env ev w) as Ho. split.
  - by apply (outcome_keeps_records env w ev).
  - intros Hnu. split.
    + by apply (outcome_same_keys env w ev).
    + intros md. by apply (outcome_record_fields env w ev).
Qed.

Lemma X20_witness :
  is_Some (record (fst (handle (sample_env key_B) (upload doc_B) world_A)) key_A).
Proof.
  destruct (X20_records_are_retained (sample_env key_B) (upload doc_B) world_A key_A)
    as [H _].
  apply H. exists record_A. vm_compute. reflexivity.
Defined.

(** X21. The invariant of the running bot.  From the empty start, after
    any events under any behaviour of the platform: every session is
    filed under its own user id; a session without a key is the
    all-default one; a session with a key has file id, name and size set
    and its key has a record in the store; [awaiting_password] is true
    exactly when [password_choice] is yes, and no other choice is ever
    recorded; every record sits under its own key, is protected exactly
    when it carries a password, and that password is non-empty with no
    whitespace at either end. *)
Theorem X21_reachable_worlds_are_consistent evs :
  consistent (fst (run initial evs)).
Proof. apply run_consistent, consistent_initial. Qed.

(** X22. In the running bot a pending file can always be delivered: in
    any world reached from the empty start, if a user's session holds a
    non-empty key and the platform works, the no-password button sends
    the links message with that key and removes the session; the
    not-found branch cannot be taken. *)
Theorem X22_pending_file_is_deliverable evs env uid s k :
  session (fst (run initial evs)) uid = Some s ->
  states.file_key s = Some k ->
  k <> [] ->
  faults env = [] ->
  exists md,
    record (fst (run initial evs)) k = Some md
    /\ snd (handle env (press (mkCallbackQuery uid pwd_no)) (fst (run initial evs)))
       = [edit_text uid (links_message_of env s k md false) None;
          answer uid (Some LINKS_GENERATED) false]
    /\ session (fst (handle env (press (mkCallbackQuery uid pwd_no))
                       (fst (run initial evs)))) uid = None.
Proof.
  intros Hs Hk Hne Hf.
  destruct (run_consistent evs initial consistent_initial) as [Hses _].
  destruct (Hses uid s Hs) as (_ & _ & _ & _ & H5). rewrite Hk in H5.
  destruct H5 as ([md Hr] & _). exists md. split; [exact Hr|].
  rewrite (press_no_ok env _ uid s k md Hs Hk Hne Hr Hf). cbn [fst snd].
  split; [reflexivity|]. apply session_cleared.
Qed.

Lemma X22_witness :
  exists md,
    record (fst (run initial [(sample_env key_A, upload doc_A)])) key_A = Some md
    /\ snd (handle (sample_env key_A) (press (mkCallbackQuery 7 pwd_no))
              (fst (run initial [(sample_env key_A, upload doc_A)])))
       = [edit_text 7 (links_message_of (sample_env key_A) session_A key_A md false) None;
          answer 7 (Some LINKS_GENERATED) false]
    /\ session (fst (handle (sample_env key_A) (press (mkCallbackQuery 7 pwd_no))
                       (fst (run initial [(sample_env key_A, upload doc_A)])))) 7 = None.
Proof.
  apply (X22_pending_file_is_deliverable [(sample_env key_A, upload doc_A)]
           (sample_env key_A) 7 session_A key_A).
  - vm_compute. reflexivity.
  - reflexivity.
  - vm_compute. discriminate.
  - reflexivity.
Defined.

Lemma or_else_nonempty (a : option str) (b : str) : b <> [] -> or_else a b <> [].
Proof. by destruct a as [[|c r]|]. Qed.

Lemma prefixed_nonempty (p x : str) : p <> [] -> p ++ x <> [].
Proof. by destruct p. Qed.

(** The file's own name when it has a non-empty one. *)
Lemma or_else_own (n b : str) : n <> [] -> or_else (Some n) b = n.
Proof. by destruct n. Qed.

Lemma or_else_missing (a : option str) (b : str) :
  a = None \/ a = Some [] -> or_else a b = b.
Proof. by intros [-> | ->]. Qed.

(** X23. How an upload is named.  A message carries a file exactly when
    it has a document, a video or an audio, looked at in that order, and
    file id and size are those of that object.  The name is the object's
    own name when it has a non-empty one; when the name is missing or
    empty it is the word document for a document, and video_ or audio_
    followed by the first 8 characters of the unique id for a video or an
    audio.  In every case the name is not empty. *)
Theorem X23_file_name_never_empty m :
  (file_info m = None <-> document m = None /\ video m = None /\ audio m = None)
  /\ (forall name fid size, file_info m = Some (name, fid, size) -> name <> [])
  /\ (forall f, document m = Some f ->
        (forall n, file_name f = Some n -> n <> [] ->
           file_info m = Some (n, file_id f, file_size f))
        /\ (file_name f = None \/ file_name f = Some [] ->
            file_info m = Some (u "document", file_id f, file_size f)))
  /\ (forall f, document m = None -> video m = Some f ->
        (forall n, file_name f = Some n -> n <> [] ->
           file_info m = Some (n, file_id f, file_size f))
        /\ (file_name f = None \/ file_name f = Some [] ->
            file_info m =
              Some (u "video_" ++ take 8 (file_unique_id f), file_id f, file_size f)))
  /\ (forall f, document m = None -> video m = None -> audio m = Some f ->
        (forall n, file_name f = Some n -> n <> [] ->
           file_info m = Some (n, file_id f, file_size f))
        /\ (file_name f = None \/ file_name f = Some [] ->
            file_info m =
              Some (u "audio_" ++ take 8 (file_unique_id f), file_id f, file_size f))).
Proof.
  assert (Hd : u "document" <> []) by (vm_compute; discriminate).
  assert (Hv : u "video_" <> []) by (vm_compute; discriminate).
  assert (Ha : u "audio_" <> []) by (vm_compute; discriminate).
  unfold file_info. split; [|split; [|split; [|split]]].
  - destruct (document m), (video m), (audio m); split; try done;
      intros (? & ? & ?); done.
  - intros name fid size.
    destruct (document m) as [f|]; [|destruct (video m) as [f|];
                                       [|destruct (audio m) as [f|]; [|done]]];
      intros [= <- _ _]; apply or_else_nonempty; try done;
      by apply prefixed_nonempty.
  - intros f ->. split.
    + intros n -> Hne. by rewrite or_else_own.
    + intros Hn. by rewrite or_else_missing.
  - intros f -> ->. split.
    + intros n -> Hne. by rewrite or_else_own.
    + intros Hn. by rewrite or_else_missing.
  - intros f -> -> ->. split.
    + intros n -> Hne. by rewrite or_else_own.
    + intros Hn. by rewrite or_else_missing.
Qed.

Lemma X23_witness :
  let f := mkMedia None (u "VID") (u "AgADBAADsomething") 5 in
  let m := mkMessage 7 10 None None (Some f) None in
  file_info m = Some (u "video_" ++ take 8 (file_unique_id f), file_id f, file_size f)
  /\ u "video_" ++ take 8 (file_unique_id f) = u "video_AgADBAAD".
Proof.
  cbv zeta. split; [|vm_compute; reflexivity].
  destruct (X23_file_name_never_empty
              (mkMessage 7 10 None None
                 (Some (mkMedia None (u "VID") (u "AgADBAADsomething") 5)) None))
    as (_ & _ & _ & Hvideo & _).
  destruct (Hvideo (mkMedia None (u "VID") (u "AgADBAADsomething") 5) eq_refl eq_refl)
    as [_ Hplace].
  apply Hplace. left. reflexivity.
Defined.

Lemma file_received_contains_key env name size k :
  contains (file_received env name size k) k.
Proof. unfold file_received. auto 20 with occurs. Qed.

(** X24. A processed upload registers the file and offers the choice.
    With the platform working, the record read back under the generated
    key is unprotected, has no password, belongs to the sender and points
    at the forwarded archive message; the user sees the processing
    notice, the file is forwarded to the storage channel, and the notice
    is edited into a prompt that shows the key and carries a keyboard
    whose every button sends one of the two codes the choice handler
    acts on. *)
Theorem X24_upload_registers_file env w m name fid size :
  file_info m = Some (name, fid, size) ->
  faults env = [] ->
  record (fst (handle env (upload m) w)) (token_urlsafe env)
    = Some (storage.mkFileMetadata (token_urlsafe env) fid name size (from_user m)
              (stored_message_id env) false None (utcnow env))
  /\ snd (handle env (upload m) w)
     = [reply_text (from_user m) PROCESSING;
        forward_messages (STORAGE_CHANNEL_ID env) (from_user m) (id m);
        edit_text (from_user m) (file_received env name size (token_urlsafe env))
          (Some keyboards.password_choice_keyboard)]
  /\ contains (file_received env name size (token_urlsafe env)) (token_urlsafe env)
  /\ (forall row label code,
        In row keyboards.password_choice_keyboard -> In (label, code) row ->
        code = pwd_no \/ code = pwd_yes).
Proof.
  intros Hi Hf. rewrite (upload_ok env w m name fid size Hi Hf). cbn [fst snd].
  split; [|split; [reflexivity|split; [apply file_received_contains_key|]]].
  - apply (record_store_file (file_storage w) (metadata_of env m name fid size)).
  - unfold keyboards.password_choice_keyboard.
    intros row label code [<-|[]] [[= _ <-]|[[= _ <-]|[]]]; [by left | by right].
Qed.

Lemma X24_witness :
  record (fst (handle (sample_env key_A) (upload doc_A) initial))
    (token_urlsafe (sample_env key_A))
  = Some (storage.mkFileMetadata (token_urlsafe (sample_env key_A)) (u "FILE-ID")
            (u "report.pdf") 1048576 (from_user doc_A)
            (stored_message_id (sample_env key_A)) false None (utcnow (sample_env key_A))).
Proof.
  apply (X24_upload_registers_file (sample_env key_A) initial doc_A
           (u "report.pdf") (u "FILE-ID") 1048576).
  - vm_compute. reflexivity.
  - reflexivity.
Defined.
